(** * Python Bridge: the step executor and the test runner of [main.py]

    A shallow embedding of [SeleniumExecutor] and of the [/execute-test]
    handler.  The browser driver, the clock, the uuid generator and the
    builtins [int] and [time.sleep] are external collaborators: they are
    the operations of a [Platform], and every theorem holds for every
    platform.  Python exceptions are an
    [outcome]; the module-level dict [active_drivers] and the queue of
    background tasks are fields of the [world] that the code threads. *)

From Stdlib Require Import ZArith String Ascii List Lia.
From stdpp Require Import base tactics option list gmap strings pretty fin_maps.

Open Scope string_scope.
Open Scope Z_scope.

(** ** Exceptions and outcomes *)

(** An instance of a subclass of [Exception], as [except Exception] catches
    it; the code reads [type(e).__name__] and [str(e)] off it. *)
Record exn : Type := Exn { ex_type : string; ex_msg : string }.

Inductive outcome (A : Type) : Type :=
| Ok (a : A)
| Raise (e : exn).
Arguments Ok {A} a.
Arguments Raise {A} e.

Definition succeeded {A} (o : outcome A) : bool :=
  match o with Ok _ => true | Raise _ => false end.

Definition value_or {A} (d : A) (o : outcome A) : A :=
  match o with Ok a => a | Raise _ => d end.

(** For a method that returns an object or Python's [None]. *)
Definition returned_some {A} (o : outcome (option A)) : bool :=
  match o with Ok (Some _) => true | _ => false end.

Definition returned {A} (d : A) (o : outcome (option A)) : A :=
  match o with Ok (Some a) => a | _ => d end.

Definition ValueError (msg : string) : exn := Exn "ValueError" msg.
Definition AssertionError (msg : string) : exn := Exn "AssertionError" msg.
Definition TypeError (msg : string) : exn := Exn "TypeError" msg.
Definition KeyError (msg : string) : exn := Exn "KeyError" msg.

(** A driver object is known by its identity ([d == driver] in the cleanup
    loop compares identities). *)
Definition handle : Type := nat.

(** ** The external collaborators *)

Class Platform : Type := {
  env : Type;                      (* browser processes, pages, clock *)
  element : Type;                  (* a located WebElement *)
  float : Type;                    (* Python floats: readings of time.time() *)
  fsub : float -> float -> float;  (* a - b *)
  round2 : float -> float;         (* round(x, 2) *)
  time_time : env -> float;        (* time.time() *)
  now_isoformat : env -> string;   (* datetime.now().isoformat() *)
  elapse : Z -> env -> env;        (* the world while the thread sleeps *)
  uuid4 : env -> string * env;     (* str(uuid.uuid4()) *)
  Driver : option string -> option bool -> env -> outcome handle * env;
  driver_get : handle -> option string -> env -> outcome unit * env;
  driver_click : handle -> string -> env -> outcome unit * env;
  driver_type : handle -> string -> string -> env -> outcome unit * env;
  driver_save_screenshot : handle -> string -> env -> outcome unit * env;
  driver_quit : handle -> env -> outcome unit * env;
  (* WebDriverWait(driver, t).until(EC.visibility_of_element_located(
       (By.CSS_SELECTOR, sel))) *)
  wait_visible : handle -> Z -> string -> env -> outcome element * env;
  element_text : element -> env -> outcome string * env;
  (* int(s) for a str s: the integer, or the exception that int raises *)
  int_str : string -> outcome Z;
  (* the exception that time.sleep(None) raises *)
  sleep_none : exn;
  (* time.sleep(n) for an int n: the exception it raises in this state, or
     None when it takes the delay and sleeps *)
  sleep_fault : Z -> env -> option exn;
  (* the two delays that the code itself passes, 1 and 2, are taken *)
  sleep_1 : forall e, sleep_fault 1 e = None;
  sleep_2 : forall e, sleep_fault 2 e = None;
}.

(** ** Python values and builtins *)

Section Values.
Context {P : Platform}.

Inductive pyval : Type :=
| VNone
| VInt (z : Z)
| VStr (s : string)
| VFloat (f : float).

Definition of_opt_str (o : option string) : pyval :=
  match o with Some s => VStr s | None => VNone end.

(** [v == s] for a string [s]. *)
Definition str_eq (v : pyval) (s : string) : bool :=
  match v with
  | VStr t => String.eqb t s
  | _ => false
  end.

End Values.

(** Truthiness of an [Optional[str]]: [None] and the empty string are falsy. *)
Definition truthy_str (o : option string) : bool :=
  match o with
  | Some s => negb (String.eqb s "")
  | None => false
  end.

(** [a or b] on two [Optional[str]]. *)
Definition or_str (a b : option string) : option string :=
  if truthy_str a then a else b.

(** [t or 10] on an [Optional[int]]: [None] and [0] are falsy. *)
Definition or_int (t : option Z) (dflt : Z) : Z :=
  match t with
  | Some n => if n =? 0 then dflt else n
  | None => dflt
  end.

(** [needle in hay] on strings. *)
Fixpoint str_in (needle hay : string) : bool :=
  String.prefix needle hay ||
  match hay with
  | EmptyString => false
  | String _ rest => str_in needle rest
  end.

Definition str_endswith (s suffix : string) : Prop :=
  exists front, s = front +:+ suffix.

(** [str(n)] for an int. *)
Definition str_of_int (n : Z) : string := pretty n.

(** [range(n)] *)
Definition py_range (n : nat) : list Z := map Z.of_nat (seq 0 n).

(** *** A reader of decimal literals

    The builtin [int] itself is an operation of the platform.  This reader
    is the [int] of the sample platforms below; it reads ASCII text the way
    CPython does: white space (tab, newline, vertical tab, form feed,
    carriage return, space) is stripped at both ends, then come an optional
    sign and decimal digits, where single underscores may separate digits.
    More than [int_max_str_digits] digits are refused.  Anything else is
    refused: [None]. *)

Definition is_space (c : ascii) : bool :=
  Ascii.eqb c " " || Ascii.eqb c "009" || Ascii.eqb c "010" ||
  Ascii.eqb c "011" || Ascii.eqb c "012" || Ascii.eqb c "013".

Definition digit_of (c : ascii) : option Z :=
  if Ascii.eqb c "0" then Some 0 else if Ascii.eqb c "1" then Some 1
  else if Ascii.eqb c "2" then Some 2 else if Ascii.eqb c "3" then Some 3
  else if Ascii.eqb c "4" then Some 4 else if Ascii.eqb c "5" then Some 5
  else if Ascii.eqb c "6" then Some 6 else if Ascii.eqb c "7" then Some 7
  else if Ascii.eqb c "8" then Some 8 else if Ascii.eqb c "9" then Some 9
  else None.

Fixpoint lstrip (s : string) : string :=
  match s with
  | String c rest => if is_space c then lstrip rest else s
  | EmptyString => EmptyString
  end.

(** Strips trailing white space; [None] when nothing but white space is left. *)
Fixpoint rstrip_aux (s : string) : option string :=
  match s with
  | EmptyString => None
  | String c rest =>
      match rstrip_aux rest with
      | Some r => Some (String c r)
      | None => if is_space c then None else Some (String c EmptyString)
      end
  end.

Definition strip (s : string) : string :=
  match rstrip_aux (lstrip s) with Some r => r | None => EmptyString end.

Definition int_max_str_digits : nat := 4300.

(** [digits acc count prev_digit s]: the value read so far, the number of
    digits read, and whether the previous character was a digit (an
    underscore is allowed only between two digits). *)
Fixpoint digits (acc : Z) (count : nat) (prev_digit : bool) (s : string)
  : option (Z * nat) :=
  match s with
  | EmptyString => if prev_digit then Some (acc, count) else None
  | String c rest =>
      match digit_of c with
      | Some d => digits (10 * acc + d) (S count) true rest
      | None =>
          if Ascii.eqb c "_" && prev_digit then digits acc count false rest
          else None
      end
  end.

Definition unsigned_int (s : string) : option Z :=
  match digits 0 0 false s with
  | Some (v, count) => if (count <=? int_max_str_digits)%nat then Some v else None
  | None => None
  end.

Definition py_int (s : string) : option Z :=
  match strip s with
  | String c rest =>
      if Ascii.eqb c "-" then Z.opp <$> unsigned_int rest
      else if Ascii.eqb c "+" then unsigned_int rest
      else unsigned_int (String c rest)
  | EmptyString => None
  end.

(** ** The data model *)

Record TestStep : Type := {
  action : string;
  selector : option string;
  value : option string;
  timeout : option Z;
  description : option string;
}.

Record TestRequest : Type := {
  req_test_id : string;
  url : string;
  steps : list TestStep;
  browser : option string;
  headless : option bool;
  webhook_url : option string;
}.

Definition SCREENSHOTS_DIR : string := "screenshots".

Section Bridge.
Context {P : Platform}.

(** A step result is a Python dict with string keys. *)
Abbreviation pydict := (gmap string pyval).

(** [{k1: v1, ...}]: the keys are set from left to right. *)
Definition dict_of (items : list (string * pyval)) : pydict :=
  foldl (fun m kv => <[kv.1 := kv.2]> m) ∅ items.

Record TestResult : Type := {
  test_id : string;
  status : string;
  duration : float;
  steps_executed : Z;
  steps_passed : Z;
  steps_failed : Z;
  error_message : option string;
  screenshot_url : option string;
  timestamp : string;
  detailed_results : list pydict;
}.

(** ** State and exceptions *)

Record world : Type := World {
  w_env : env;
  active_drivers : gmap string handle;
  background_tasks : list (string * TestResult);
}.

Definition set_env (e : env) (w : world) : world :=
  World e (active_drivers w) (background_tasks w).

Definition M (A : Type) : Type := world -> outcome A * world.

Definition ret {A} (a : A) : M A := fun w => (Ok a, w).

Definition raise {A} (e : exn) : M A := fun w => (Raise e, w).

Definition bind {A B} (m : M A) (k : A -> M B) : M B :=
  fun w =>
    match m w with
    | (Ok a, w') => k a w'
    | (Raise e, w') => (Raise e, w')
    end.

(** [try: body / except Exception as e: handler e] *)
Definition try_except {A} (body : M A) (handler : exn -> M A) : M A :=
  fun w =>
    match body w with
    | (Ok a, w') => (Ok a, w')
    | (Raise e, w') => handler e w'
    end.

(** [try: body / finally: fin] *)
Definition try_finally {A} (body : M A) (fin : M unit) : M A :=
  fun w =>
    match body w with
    | (r, w') =>
        match fin w' with
        | (Ok _, w'') => (r, w'')
        | (Raise e, w'') => (Raise e, w'')
        end
    end.

(** A call into the platform, and a read of it. *)
Definition call {A} (op : env -> outcome A * env) : M A :=
  fun w => match op (w_env w) with (r, e') => (r, set_env e' w) end.

Definition read {A} (f : env -> A) : M A :=
  fun w => (Ok (f (w_env w)), w).

Notation "x <~ c ;; k" := (bind c (fun x => k))
  (at level 100, c at next level, right associativity).
Notation "c ;;; k" := (bind c (fun _ => k))
  (at level 100, right associativity).

(** A builtin that only computes: its value, or the exception it raises. *)
Definition builtin {A} (o : outcome A) : M A := fun w => (o, w).

(** [time.sleep(secs)]: the platform says which arguments it refuses and
    with what; a delay it takes passes as [elapse]. *)
Definition time_sleep (secs : option Z) : M unit :=
  match secs with
  | None => raise sleep_none
  | Some n =>
      fun w =>
        match sleep_fault n (w_env w) with
        | Some e => (Raise e, w)
        | None => (Ok tt, set_env (elapse n (w_env w)) w)
        end
  end.

(** ** [SeleniumExecutor] *)

Record SeleniumExecutor : Type := {
  driver : handle;
  self_test_id : string;
}.

(** The result every action but [screenshot] returns (main.py:170-178). *)
Definition action_result (step : TestStep) (step_number : Z)
    (start_time : float) : M pydict :=
  duration <~ read (fun e => fsub (time_time e) start_time) ;;
  ts <~ read now_isoformat ;;
  ret (dict_of [("step_number", VInt step_number);
                ("action", VStr (action step));
                ("selector", of_opt_str (selector step));
                ("value", of_opt_str (value step));
                ("duration", VFloat duration);
                ("timestamp", VStr ts)]).

Definition _execute_action (self : SeleniumExecutor) (step : TestStep)
    (step_number : Z) : M pydict :=
  start_time <~ read time_time ;;
  if String.eqb (action step) "open_url" then
    let url := or_str (value step) (selector step) in
    call (driver_get (driver self) url) ;;;
    time_sleep (Some 1) ;;;
    action_result step step_number start_time
  else if String.eqb (action step) "click" then
    match selector step with
    | Some sel =>
        if String.eqb sel "" then
          raise (ValueError "Selector is required for click action")
        else
          call (wait_visible (driver self) (or_int (timeout step) 10) sel) ;;;
          call (driver_click (driver self) sel) ;;;
          action_result step step_number start_time
    | None => raise (ValueError "Selector is required for click action")
    end
  else if String.eqb (action step) "type_text" then
    match selector step, value step with
    | Some sel, Some v =>
        if String.eqb sel "" || String.eqb v "" then
          raise (ValueError "Selector and value are required for type_text action")
        else
          call (wait_visible (driver self) (or_int (timeout step) 10) sel) ;;;
          call (driver_type (driver self) sel v) ;;;
          action_result step step_number start_time
    | _, _ =>
        raise (ValueError "Selector and value are required for type_text action")
    end
  else if String.eqb (action step) "verify" then
    match selector step with
    | Some sel =>
        if String.eqb sel "" then
          raise (ValueError "Selector is required for verify action")
        else
          element <~ call (wait_visible (driver self) (or_int (timeout step) 10) sel) ;;
          (if truthy_str (value step) then
             let v := default "" (value step) in
             element_text <~ call (element_text element) ;;
             if negb (str_in v element_text) then
               raise (AssertionError ("Expected '" +:+ v +:+
                        "' not found in element text: '" +:+ element_text +:+ "'"))
             else ret tt
           else ret tt) ;;;
          action_result step step_number start_time
    | None => raise (ValueError "Selector is required for verify action")
    end
  else if String.eqb (action step) "wait" then
    wait_time <~ (if truthy_str (value step) then
                    n <~ builtin (int_str (default "" (value step))) ;;
                    ret (Some n)
                  else ret (timeout step)) ;;
    time_sleep wait_time ;;;
    action_result step step_number start_time
  else if String.eqb (action step) "screenshot" then
    let screenshot_path :=
      SCREENSHOTS_DIR +:+ "/" +:+ self_test_id self +:+ "_step_" +:+
      str_of_int step_number +:+ ".png" in
    call (driver_save_screenshot (driver self) screenshot_path) ;;;
    duration <~ read (fun e => fsub (time_time e) start_time) ;;
    ts <~ read now_isoformat ;;
    ret (dict_of [("step_number", VInt step_number);
                  ("action", VStr (action step));
                  ("screenshot", VStr screenshot_path);
                  ("duration", VFloat duration);
                  ("timestamp", VStr ts)])
  else
    raise (ValueError ("Unknown action: " +:+ action step)).

(** [_capture_failure_screenshot]: a fault of the capture is caught here and
    the helper returns [None]. *)
Definition _capture_failure_screenshot (self : SeleniumExecutor)
    (step_number : Z) : M (option string) :=
  try_except
    (let screenshot_path :=
       SCREENSHOTS_DIR +:+ "/" +:+ self_test_id self +:+ "_step_" +:+
       str_of_int step_number +:+ "_FAILED.png" in
     call (driver_save_screenshot (driver self) screenshot_path) ;;;
     ret (Some screenshot_path))
    (fun _ => ret None).

Definition max_retries : Z := 2.
Definition retry_delay : Z := 2.

(** One turn of the [for attempt in range(max_retries + 1)] loop:
    [Some r] when the body executes [return r], [None] when it falls
    through to the next turn. *)
Definition attempt_body (self : SeleniumExecutor) (step : TestStep)
    (step_number : Z) (attempt : Z) : M (option pydict) :=
  try_except
    (result <~ _execute_action self step step_number ;;
     let result := <["attempt" := VInt (attempt + 1)]> result in
     let result := <["status" := VStr "passed"]> result in
     ret (Some result))
    (fun e =>
       if attempt <? max_retries then
         time_sleep (Some retry_delay) ;;;
         ret None
       else
         screenshot_path <~ _capture_failure_screenshot self step_number ;;
         ts <~ read now_isoformat ;;
         ret (Some (dict_of [("step_number", VInt step_number);
                             ("action", VStr (action step));
                             ("status", VStr "failed");
                             ("error", VStr (ex_msg e));
                             ("error_type", VStr (ex_type e));
                             ("screenshot", of_opt_str screenshot_path);
                             ("attempt", VInt (attempt + 1));
                             ("timestamp", VStr ts)]))).

(** The loop; a loop that ends without [return] makes the method return
    Python's [None]. *)
Fixpoint for_attempts (self : SeleniumExecutor) (step : TestStep)
    (step_number : Z) (attempts : list Z) : M (option pydict) :=
  match attempts with
  | [] => ret None
  | attempt :: rest =>
      r <~ attempt_body self step step_number attempt ;;
      match r with
      | Some result => ret (Some result)
      | None => for_attempts self step step_number rest
      end
  end.

Definition execute_step (self : SeleniumExecutor) (step : TestStep)
    (step_number : Z) : M (option pydict) :=
  for_attempts self step step_number (py_range (Z.to_nat (max_retries + 1))).

(** ** The [/execute-test] handler *)

(** [for idx, step in enumerate(request.steps, 1)] with its three
    accumulators.  A result that is not a dict, or has no ["status"], makes
    the subscript raise. *)
Fixpoint for_steps (executor : SeleniumExecutor) (todo : list TestStep)
    (idx : Z) (detailed_results : list pydict) (steps_passed steps_failed : Z)
  : M (list pydict * Z * Z) :=
  match todo with
  | [] => ret (detailed_results, steps_passed, steps_failed)
  | step :: rest =>
      step_result <~ execute_step executor step idx ;;
      match step_result with
      | None => raise (TypeError "'NoneType' object is not subscriptable")
      | Some step_result =>
          let detailed_results := (detailed_results ++ [step_result])%list in
          match step_result !! "status" with
          | None => raise (KeyError "'status'")
          | Some st =>
              if str_eq st "passed" then
                for_steps executor rest (idx + 1) detailed_results
                          (steps_passed + 1) steps_failed
              else
                for_steps executor rest (idx + 1) detailed_results
                          steps_passed (steps_failed + 1)
          end
      end
  end.

(** [background_tasks.add_task(send_webhook, request.webhook_url, result.dict())] *)
Definition add_task (webhook : string) (result : TestResult) : M unit :=
  fun w => (Ok tt, World (w_env w) (active_drivers w)
                         (background_tasks w ++ [(webhook, result)])%list).

Definition notify (request : TestRequest) (result : TestResult) : M unit :=
  if truthy_str (webhook_url request)
  then add_task (default "" (webhook_url request)) result
  else ret tt.

(** The [try] block from the line after [driver = Driver(...)] to its
    [return result] (main.py:233-282). *)
Definition run_session (request : TestRequest) (start_time : float)
    (driver : handle) : M TestResult :=
  session_id <~ call (fun e => match uuid4 e with (s, e') => (Ok s, e') end) ;;
  (fun w => (Ok tt, World (w_env w) (<[session_id := driver]> (active_drivers w))
                          (background_tasks w))) ;;;
  let executor := {| driver := driver; self_test_id := req_test_id request |} in
  call (driver_get driver (Some (url request))) ;;;
  loop <~ for_steps executor (steps request) 1 [] 0 0 ;;
  let '(detailed_results, steps_passed, steps_failed) := loop in
  duration <~ read (fun e => fsub (time_time e) start_time) ;;
  let overall_status := if steps_failed =? 0 then "PASS" else "FAIL" in
  ts <~ read now_isoformat ;;
  let result := {|
    test_id := req_test_id request;
    status := overall_status;
    duration := round2 duration;
    steps_executed := Z.of_nat (length (steps request));
    steps_passed := steps_passed;
    steps_failed := steps_failed;
    error_message := None;
    screenshot_url := None;
    timestamp := ts;
    detailed_results := detailed_results |} in
  notify request result ;;;
  ret result.

(** The [except Exception as e] block (main.py:284-315); [driver] is the
    local variable, still [None] when [Driver(...)] itself raised. *)
Definition on_error (request : TestRequest) (start_time : float)
    (driver : option handle) (e : exn) : M TestResult :=
  duration <~ read (fun env => fsub (time_time env) start_time) ;;
  let error_msg := ex_type e +:+ ": " +:+ ex_msg e in
  screenshot_path <~
    match driver with
    | Some d =>
        let path := SCREENSHOTS_DIR +:+ "/" +:+ req_test_id request +:+ "_ERROR.png" in
        (* the path is assigned before the capture is tried *)
        try_except (call (driver_save_screenshot d path)) (fun _ => ret tt) ;;;
        ret (Some path)
    | None => ret None
    end ;;
  ts <~ read now_isoformat ;;
  let result := {|
    test_id := req_test_id request;
    status := "ERROR";
    duration := round2 duration;
    steps_executed := 0;
    steps_passed := 0;
    steps_failed := 0;
    error_message := Some error_msg;
    screenshot_url := screenshot_path;
    timestamp := ts;
    detailed_results := [] |} in
  notify request result ;;;
  ret result.

(** [for sid, d in list(active_drivers.items()): if d == driver: del ...] *)
Definition deregister (driver : handle) : M unit :=
  fun w =>
    let items := map_to_list (active_drivers w) in
    let remaining :=
      foldl (fun reg (item : string * handle) =>
               if decide (item.2 = driver) then delete item.1 reg else reg)
            (active_drivers w) items in
    (Ok tt, World (w_env w) remaining (background_tasks w)).

(** The [finally] block (main.py:317-327): the deregistration is inside the
    [try] that guards [driver.quit()]. *)
Definition cleanup (driver : option handle) : M unit :=
  match driver with
  | Some d =>
      try_except (call (driver_quit d) ;;; deregister d) (fun _ => ret tt)
  | None => ret tt
  end.

Definition execute_test (request : TestRequest) : M TestResult :=
  fun w =>
    let start_time := time_time (w_env w) in
    match call (Driver (browser request) (headless request)) w with
    | (Raise e, w1) =>
        try_finally (on_error request start_time None e) (cleanup None) w1
    | (Ok d, w1) =>
        try_finally
          (try_except (run_session request start_time d)
                      (on_error request start_time (Some d)))
          (cleanup (Some d)) w1
    end.

End Bridge.

Notation "x <~ c ;; k" := (bind c (fun x => k))
  (at level 100, c at next level, right associativity).
Notation "c ;;; k" := (bind c (fun _ => k))
  (at level 100, right associativity).

(** ** The other endpoints and the callback *)

Section Endpoints.
Context {P : Platform}.

(** [GET /] *)
Definition read_root : M (gmap string pyval) :=
  ret (dict_of [("service", VStr "Python Bridge API");
                ("status", VStr "running");
                ("version", VStr "1.0.0");
                ("docs", VStr "/docs")]).


End Endpoints.

(** The HTTP client that [send_webhook] uses, and the logger it writes to:
    the post and the log line are all that the function does. *)
Class Network (body : Type) : Type := {
  net : Type;
  response : Type;
  (* requests.post(url, json=data, timeout=t) *)
  requests_post : string -> body -> Z -> net -> outcome response * net;
  (* response.raise_for_status() *)
  raise_for_status : response -> outcome unit;
}.

Section Webhook.
Context {body : Type} {N : Network body}.

Inductive log_level : Type := INFO | ERROR.

Record hook_state : Type := Hook {
  h_net : net;
  h_log : list (log_level * string);
}.

Definition HM (A : Type) : Type := hook_state -> outcome A * hook_state.

Definition logger (level : log_level) (msg : string) : HM unit :=
  fun s => (Ok tt, Hook (h_net s) (h_log s ++ [(level, msg)])%list).

Definition h_bind {A B} (m : HM A) (k : A -> HM B) : HM B :=
  fun s =>
    match m s with
    | (Ok a, s') => k a s'
    | (Raise e, s') => (Raise e, s')
    end.

Definition h_try {A} (body : HM A) (handler : exn -> HM A) : HM A :=
  fun s =>
    match body s with
    | (Ok a, s') => (Ok a, s')
    | (Raise e, s') => handler e s'
    end.

Definition send_webhook (webhook_url : string) (data : body) : HM unit :=
  h_try
    (h_bind (fun s => match requests_post webhook_url data 10 (h_net s) with
                      | (r, n') => (r, Hook n' (h_log s))
                      end)
       (fun response =>
     h_bind (fun s => (raise_for_status response, s))
       (fun _ =>
     logger INFO ("Webhook sent successfully to " +:+ webhook_url))))
    (fun e => logger ERROR ("Failed to send webhook: " +:+ ex_msg e)).

End Webhook.

(** ** A scripted platform

    A small browser whose behaviour is read off its state: used to run the
    code on concrete inputs. *)

Module Scripted.

Record browser_state : Type := Browser {
  page_text : string;       (* the visible text of every element *)
  misses : nat;             (* the next [misses] element waits time out *)
  create_ok : bool;         (* Driver(...) succeeds *)
  nav_ok : bool;            (* driver.get succeeds *)
  shot_ok : bool;           (* save_screenshot succeeds *)
  quit_ok : bool;           (* driver.quit succeeds *)
  created : nat;            (* drivers created so far *)
  clock : Z;                (* seconds *)
  calls : list string;      (* the driver calls made, oldest first *)
}.

Definition log (c : string) (b : browser_state) : browser_state :=
  Browser (page_text b) (misses b) (create_ok b) (nav_ok b) (shot_ok b)
          (quit_ok b) (created b) (clock b) (calls b ++ [c])%list.

Definition WebDriverException (msg : string) : exn := Exn "WebDriverException" msg.
Definition TimeoutException (msg : string) : exn := Exn "TimeoutException" msg.

Definition guarded (ok : bool) (c : string) (b : browser_state)
  : outcome unit * browser_state :=
  if ok then (Ok tt, log c b)
  else (Raise (WebDriverException (c +:+ " failed")), log c b).

(** The builtins of the sample platforms: [int] reads ASCII decimal
    literals with [py_int] (the message is the one CPython prints for text
    without quote, backslash or control character); [time.sleep] refuses
    negative delays and takes every other one. *)
Definition sample_int (s : string) : outcome Z :=
  match py_int s with
  | Some n => Ok n
  | None =>
      Raise (ValueError ("invalid literal for int() with base 10: '" +:+ s +:+ "'"))
  end.

Definition sample_sleep_fault (n : Z) : option exn :=
  if n <? 0 then Some (ValueError "sleep length must be non-negative")
  else None.

#[export] Instance platform : Platform := {|
  env := browser_state;
  element := string;
  float := Z;
  fsub := Z.sub;
  round2 := fun x => x;
  time_time := clock;
  now_isoformat := fun b => "T+" +:+ pretty (clock b);
  elapse := fun n b =>
    Browser (page_text b) (misses b) (create_ok b) (nav_ok b) (shot_ok b)
            (quit_ok b) (created b) (clock b + n)
            (calls b ++ ["sleep " +:+ pretty n])%list;
  uuid4 := fun b => ("uuid-" +:+ pretty (created b), b);
  Driver := fun _ _ b =>
    if create_ok b then
      (Ok (created b),
       Browser (page_text b) (misses b) (create_ok b) (nav_ok b) (shot_ok b)
               (quit_ok b) (S (created b)) (clock b) (calls b ++ ["Driver"])%list)
    else (Raise (WebDriverException "session not created"), log "Driver" b);
  driver_get := fun _ u b => guarded (nav_ok b) ("get " +:+ default "None" u) b;
  driver_click := fun _ sel b => guarded true ("click " +:+ sel) b;
  driver_type := fun _ sel v b => guarded true ("type " +:+ sel) b;
  driver_save_screenshot := fun _ path b => guarded (shot_ok b) ("save " +:+ path) b;
  driver_quit := fun _ b => guarded (quit_ok b) "quit" b;
  wait_visible := fun _ _ sel b =>
    match misses b with
    | O => (Ok sel, log ("wait " +:+ sel) b)
    | S k =>
        (Raise (TimeoutException "Message: "),
         Browser (page_text b) k (create_ok b) (nav_ok b) (shot_ok b)
                 (quit_ok b) (created b) (clock b)
                 (calls b ++ ["wait " +:+ sel])%list)
    end;
  element_text := fun _ b => (Ok (page_text b), b);
  int_str := sample_int;
  sleep_none := TypeError "'NoneType' object cannot be interpreted as an integer";
  sleep_fault := fun n _ => sample_sleep_fault n;
  sleep_1 := fun _ => eq_refl;
  sleep_2 := fun _ => eq_refl;
|}.

(** A healthy browser showing [text]. *)
Definition showing (text : string) : browser_state :=
  Browser text 0 true true true true 0 0 [].

Definition start (b : browser_state) : world := World b ∅ [].

Definition step_of (a : string) (sel v : option string) : TestStep :=
  {| action := a; selector := sel; value := v; timeout := Some 10;
     description := None |}.

Definition request_of (ss : list TestStep) : TestRequest :=
  {| req_test_id := "t1"; url := "http://example.test"; steps := ss;
     browser := Some "chrome"; headless := Some true; webhook_url := None |}.

Definition exec : SeleniumExecutor := {| driver := 0%nat; self_test_id := "t1" |}.

Definition bogus_step : TestStep := step_of "bogus" None None.
Definition click_step : TestStep := step_of "click" (Some "#go") None.

(** A browser whose screenshots fail. *)
Definition blind : browser_state := Browser "hi" 0 true true false true 0 0 [].

(** A browser whose element appears after two timed-out waits. *)
Definition slow : browser_state := Browser "hi" 2 true true true true 0 0 [].

(** A browser that cannot quit, one that cannot navigate, one that cannot
    be created. *)
Definition stuck : browser_state := Browser "hi" 0 true true true false 0 0 [].
Definition offline : browser_state := Browser "hi" 0 true false true true 0 0 [].
Definition broken : browser_state := Browser "hi" 0 false true true true 0 0 [].

Definition wait_step (v : option string) : TestStep := step_of "wait" None v.

Definition no_result : TestResult :=
  {| test_id := ""; status := ""; duration := 0; steps_executed := 0;
     steps_passed := 0; steps_failed := 0; error_message := None;
     screenshot_url := None; timestamp := ""; detailed_results := [] |}.

Definition result_of (x : outcome TestResult * world) : TestResult :=
  value_or no_result (fst x).

(** A page that never changes: every element is found at once and reads
    [text]; nothing faults. *)
Definition static (text : string) : Platform := {|
  env := unit;
  element := unit;
  float := Z;
  fsub := Z.sub;
  round2 := fun x => x;
  time_time := fun _ => 0;
  now_isoformat := fun _ => "2026-01-14T09:00:00";
  elapse := fun _ e => e;
  uuid4 := fun e => ("8c1f", e);
  Driver := fun _ _ e => (Ok 0%nat, e);
  driver_get := fun _ _ e => (Ok tt, e);
  driver_click := fun _ _ e => (Ok tt, e);
  driver_type := fun _ _ _ e => (Ok tt, e);
  driver_save_screenshot := fun _ _ e => (Ok tt, e);
  driver_quit := fun _ e => (Ok tt, e);
  wait_visible := fun _ _ _ e => (Ok tt, e);
  element_text := fun _ e => (Ok text, e);
  int_str := sample_int;
  sleep_none := TypeError "'NoneType' object cannot be interpreted as an integer";
  sleep_fault := fun n _ => sample_sleep_fault n;
  sleep_1 := fun _ => eq_refl;
  sleep_2 := fun _ => eq_refl;
|}.

Definition blank (text : string) : @world (static text) :=
  @World (static text) tt ∅ [].

End Scripted.

(** ** The retry policy as the specification words it

    Three attempts at most, a fixed delay before the second and the third,
    a failure screenshot only after the third fault.  [execute_step] (the
    loop above) is compared with this unrolled form below. *)

Section Policy.
Context {P : Platform}.

Definition after_delay (w : world) : world :=
  set_env (elapse 2 (w_env w)) w.

Definition passed_result (attempt : Z) (result : gmap string pyval)
  : gmap string pyval :=
  <["status" := VStr "passed"]> (<["attempt" := VInt attempt]> result).

Definition failed_path (self : SeleniumExecutor) (step_number : Z) : string :=
  SCREENSHOTS_DIR +:+ "/" +:+ self_test_id self +:+ "_step_" +:+
  str_of_int step_number +:+ "_FAILED.png".

Definition failed_result (step : TestStep) (step_number : Z) (e : exn)
    (screenshot : option string) (attempt : Z) (ts : string)
  : gmap string pyval :=
  dict_of [("step_number", VInt step_number);
           ("action", VStr (action step));
           ("status", VStr "failed");
           ("error", VStr (ex_msg e));
           ("error_type", VStr (ex_type e));
           ("screenshot", of_opt_str screenshot);
           ("attempt", VInt attempt);
           ("timestamp", VStr ts)].

Definition retry_policy (self : SeleniumExecutor) (step : TestStep)
    (step_number : Z) : M (option (gmap string pyval)) :=
  fun w =>
    match _execute_action self step step_number w with
    | (Ok r, w1) => (Ok (Some (passed_result 1 r)), w1)
    | (Raise _, w1) =>
    match _execute_action self step step_number (after_delay w1) with
    | (Ok r, w2) => (Ok (Some (passed_result 2 r)), w2)
    | (Raise _, w2) =>
    match _execute_action self step step_number (after_delay w2) with
    | (Ok r, w3) => (Ok (Some (passed_result 3 r)), w3)
    | (Raise e, w3) =>
        let path := failed_path self step_number in
        match driver_save_screenshot (driver self) path (w_env w3) with
        | (Ok _, e4) =>
            (Ok (Some (failed_result step step_number e (Some path) 3
                                     (now_isoformat e4))),
             set_env e4 w3)
        | (Raise _, e4) =>
            (Ok (Some (failed_result step step_number e None 3
                                     (now_isoformat e4))),
             set_env e4 w3)
        end
    end end end.

(** The duration a [wait] step asks for: [int(value)] when a value is given,
    the step's timeout otherwise; [None] when [int] raises or the timeout is
    null. *)
Definition wait_duration (step : TestStep) : option Z :=
  if truthy_str (value step)
  then match int_str (default "" (value step)) with
       | Ok n => Some n
       | Raise _ => None
       end
  else timeout step.

(** The world once the callback, if one was asked for, is queued. *)
Definition notified (request : TestRequest) (r : TestResult) (w : world) : world :=
  if truthy_str (webhook_url request)
  then World (w_env w) (active_drivers w)
             (background_tasks w ++ [(default "" (webhook_url request), r)])%list
  else w.

Definition error_path (request : TestRequest) : string :=
  SCREENSHOTS_DIR +:+ "/" +:+ req_test_id request +:+ "_ERROR.png".

(** The result of a run that faulted outside the steps. *)
Definition error_result (request : TestRequest) (d : float) (e : exn)
    (shot : option string) (ts : string) : TestResult := {|
  test_id := req_test_id request;
  status := "ERROR";
  duration := d;
  steps_executed := 0;
  steps_passed := 0;
  steps_failed := 0;
  error_message := Some (ex_type e +:+ ": " +:+ ex_msg e);
  screenshot_url := shot;
  timestamp := ts;
  detailed_results := [] |}.

(** A result that carries a duration and a timestamp. *)
Definition timed (r : gmap string pyval) : Prop :=
  (exists d, r !! "duration" = Some (VFloat d)) /\
  (exists ts, r !! "timestamp" = Some (VStr ts)).

(** A computation that leaves [active_drivers] as it found it, whether it
    returns or raises. *)
Definition keeps_registry {A} (m : M A) : Prop :=
  forall w, active_drivers (snd (m w)) = active_drivers w.

End Policy.

(** ** More sample inputs *)

Module Samples.
Import Scripted.

Definition shot_step : TestStep := step_of "screenshot" None None.
Definition open_step : TestStep :=
  step_of "open_url" (Some "#ignored") (Some "http://example.test/next").
Definition bare_click : TestStep := step_of "click" None None.
Definition quiet_verify : TestStep := step_of "verify" (Some "#msg") None.

(** A click that names no timeout. *)
Definition patient_click : TestStep :=
  {| action := "click"; selector := Some "#go"; value := None;
     timeout := None; description := None |}.

(** A browser whose element appears after one timed-out wait. *)
Definition late : browser_state := Browser "hi" 1 true true true true 0 0 [].

(** A registry that already holds the session of another request. *)
Definition busy (b : browser_state) : world :=
  World b {["other" := 7%nat]} [].


End Samples.

(** ** Vocabulary for the properties of the actions and of a run *)

Section Vocabulary.
Context {P : Platform}.

(** The six actions that [_execute_action] dispatches on. *)
Definition known_action (a : string) : bool :=
  String.eqb a "open_url" || String.eqb a "click" || String.eqb a "type_text" ||
  String.eqb a "verify" || String.eqb a "wait" || String.eqb a "screenshot".

(** A step that lacks a field its action requires. *)
Definition missing_required (step : TestStep) : bool :=
  String.eqb (action step) "click" && negb (truthy_str (selector step)) ||
  String.eqb (action step) "type_text" &&
    (negb (truthy_str (selector step)) || negb (truthy_str (value step))) ||
  String.eqb (action step) "verify" && negb (truthy_str (selector step)).

(** What a [wait] step without a duration raises: the exception of [int]
    when its value is given and is no integer, the exception of
    [time.sleep(None)] when value and timeout are both missing. *)
Definition wait_refusal (step : TestStep) : exn :=
  if truthy_str (value step)
  then match int_str (default "" (value step)) with
       | Raise e => e
       | Ok _ => sleep_none
       end
  else sleep_none.

Definition with_timeout (t : option Z) (step : TestStep) : TestStep :=
  {| action := action step; selector := selector step; value := value step;
     timeout := t; description := description step |}.

(** The path of the screenshot that a [screenshot] step writes. *)
Definition step_path (self : SeleniumExecutor) (step_number : Z) : string :=
  SCREENSHOTS_DIR +:+ "/" +:+ self_test_id self +:+ "_step_" +:+
  str_of_int step_number +:+ ".png".

Definition has_status (s : string) (r : gmap string pyval) : bool :=
  match r !! "status" with
  | Some v => str_eq v s
  | None => false
  end.

Definition count_status (s : string) (rs : list (gmap string pyval)) : Z :=
  Z.of_nat (length (filter (fun r => has_status s r = true) rs)).

(** A computation that leaves the projection [proj] of the world as it
    found it, whether it returns or raises. *)
Definition preserves {A B} (proj : world -> B) (m : M A) : Prop :=
  forall w, proj (snd (m w)) = proj w.

End Vocabulary.

(** * Properties *)

(** ** The builtins on sample inputs *)

Example py_int_12 : py_int " 12 " = Some 12.
Proof. reflexivity. Qed.

Example py_int_neg : py_int "-3" = Some (-3).
Proof. reflexivity. Qed.

Example py_int_abc : py_int "abc" = None.
Proof. reflexivity. Qed.

Example str_in_welcome : str_in "Welcome" "Welcome, User" = true.
Proof. reflexivity. Qed.

Example str_in_goodbye : str_in "Welcome" "Goodbye" = false.
Proof. reflexivity. Qed.

(** ** The monad *)

Section Laws.
Context {P : Platform}.

Lemma bind_Ok {A B} (m : M A) (k : A -> M B) w a w1 :
  m w = (Ok a, w1) -> bind m k w = k a w1.
Proof. intros H. unfold bind. now rewrite H. Qed.

Lemma bind_Raise {A B} (m : M A) (k : A -> M B) w e w1 :
  m w = (Raise e, w1) -> bind m k w = (Raise e, w1).
Proof. intros H. unfold bind. now rewrite H. Qed.

Lemma bind_Ok_inv {A B} (m : M A) (k : A -> M B) w b w2 :
  bind m k w = (Ok b, w2) ->
  exists a w1, m w = (Ok a, w1) /\ k a w1 = (Ok b, w2).
Proof.
  unfold bind. destruct (m w) as [[a|e] w1]; intros H.
  - now exists a, w1.
  - discriminate.
Qed.

Lemma run_Ok_eta {A W} (x : outcome A * W) d :
  succeeded (fst x) = true -> x = (Ok (value_or d (fst x)), snd x).
Proof. destruct x as [[a|e] w]; simpl; [reflexivity | discriminate]. Qed.

Lemma run_Some_eta {A W} (x : outcome (option A) * W) d :
  returned_some (fst x) = true -> x = (Ok (Some (returned d (fst x))), snd x).
Proof. destruct x as [[[a|]|e] w]; simpl; (reflexivity || discriminate). Qed.

Lemma time_sleep_ok n w :
  sleep_fault n (w_env w) = None ->
  time_sleep (Some n) w = (Ok tt, set_env (elapse n (w_env w)) w).
Proof. intros H. unfold time_sleep. now rewrite H. Qed.

End Laws.

(** ** The step executor *)

Section Executor.
Context {P : Platform}.

Lemma retry_delay_ok w : time_sleep (Some retry_delay) w = (Ok tt, after_delay w).
Proof. apply time_sleep_ok. apply sleep_2. Qed.

(** The loop of [execute_step] is the unrolled policy. *)
Lemma execute_step_retry_policy self step n w :
  execute_step self step n w = retry_policy self step n w.
Proof.
  unfold execute_step, retry_policy.
  change (py_range (Z.to_nat (max_retries + 1))) with [0; 1; 2].
  cbn [for_attempts]. unfold attempt_body, try_except, bind, ret.
  destruct (_execute_action self step n w) as [[r1|e1] w1]; [reflexivity|].
  change (0 <? max_retries) with true. cbv beta iota.
  rewrite retry_delay_ok.
  destruct (_execute_action self step n (after_delay w1)) as [[r2|e2] w2];
    [reflexivity|].
  change (1 <? max_retries) with true. cbv beta iota.
  rewrite retry_delay_ok.
  destruct (_execute_action self step n (after_delay w2)) as [[r3|e3] w3];
    [reflexivity|].
  change (2 <? max_retries) with false. cbv beta iota.
  unfold _capture_failure_screenshot, try_except, bind, ret, call, read.
  fold (failed_path self n).
  destruct (driver_save_screenshot (driver self) (failed_path self n) (w_env w3))
    as [[[]|e4] env4]; reflexivity.
Qed.

End Executor.

(** ** Results of a step *)

Section Results.
Context {P : Platform}.

Lemma append_assoc3 (a b c : string) : (a +:+ b) +:+ c = a +:+ (b +:+ c).
Proof.
  induction a as [|ch a IH]; [reflexivity|].
  change (String ch ((a +:+ b) +:+ c) = String ch (a +:+ (b +:+ c))).
  now f_equal.
Qed.

Lemma failed_path_suffix self n : str_endswith (failed_path self n) "_FAILED.png".
Proof.
  exists (SCREENSHOTS_DIR +:+ "/" +:+ self_test_id self +:+ "_step_" +:+
          str_of_int n).
  unfold failed_path. now rewrite !append_assoc3.
Qed.

Lemma passed_status a (r : gmap string pyval) :
  passed_result a r !! "status" = Some (VStr "passed").
Proof. unfold passed_result. apply lookup_insert_eq. Qed.

Lemma passed_attempt a (r : gmap string pyval) :
  passed_result a r !! "attempt" = Some (VInt a).
Proof.
  unfold passed_result. rewrite lookup_insert_ne by discriminate.
  apply lookup_insert_eq.
Qed.

Lemma passed_other k a (r : gmap string pyval) :
  k <> "status" -> k <> "attempt" -> passed_result a r !! k = r !! k.
Proof.
  intros H1 H2. unfold passed_result.
  rewrite lookup_insert_ne by congruence.
  now rewrite lookup_insert_ne by congruence.
Qed.

Lemma failed_status step n e shot a ts :
  failed_result step n e shot a ts !! "status" = Some (VStr "failed").
Proof. reflexivity. Qed.

Lemma failed_attempt step n e shot a ts :
  failed_result step n e shot a ts !! "attempt" = Some (VInt a).
Proof. reflexivity. Qed.

Lemma failed_error step n e shot a ts :
  failed_result step n e shot a ts !! "error" = Some (VStr (ex_msg e)).
Proof. reflexivity. Qed.


Lemma failed_screenshot step n e shot a ts :
  failed_result step n e shot a ts !! "screenshot" = Some (of_opt_str shot).
Proof. reflexivity. Qed.

Lemma failed_timestamp step n e shot a ts :
  failed_result step n e shot a ts !! "timestamp" = Some (VStr ts).
Proof. reflexivity. Qed.

Lemma failed_duration step n e shot a ts :
  failed_result step n e shot a ts !! "duration" = None.
Proof. reflexivity. Qed.

End Results.

(** ** The actions *)

Section Actions.
Context {P : Platform}.

Lemma action_result_run step n start_time w :
  action_result step n start_time w =
  (Ok (dict_of [("step_number", VInt n);
                ("action", VStr (action step));
                ("selector", of_opt_str (selector step));
                ("value", of_opt_str (value step));
                ("duration", VFloat (fsub (time_time (w_env w)) start_time));
                ("timestamp", VStr (now_isoformat (w_env w)))]), w).
Proof. reflexivity. Qed.

Lemma action_result_timed step n start_time w r w' :
  action_result step n start_time w = (Ok r, w') -> timed r.
Proof.
  rewrite action_result_run. intros H.
  apply (f_equal (fun p => value_or ∅ (fst p))) in H. simpl in H. subst r.
  split; eexists; reflexivity.
Qed.

Ltac bind_inv H :=
  let a := fresh "a" in
  let w := fresh "w" in
  let Hm := fresh "Hm" in
  apply bind_Ok_inv in H as (a & w & Hm & H).

(** Every result that [_execute_action] returns carries a duration and a
    timestamp. *)
Lemma _execute_action_timed self step n w r w' :
  _execute_action self step n w = (Ok r, w') -> timed r.
Proof.
  unfold _execute_action. intros H. bind_inv H.
  destruct (String.eqb (action step) "open_url").
  { do 2 bind_inv H. eapply action_result_timed, H. }
  destruct (String.eqb (action step) "click").
  { destruct (selector step) as [sel|]; [|discriminate].
    destruct (String.eqb sel ""); [discriminate|].
    do 2 bind_inv H. eapply action_result_timed, H. }
  destruct (String.eqb (action step) "type_text").
  { destruct (selector step) as [sel|]; [|discriminate].
    destruct (value step) as [v|]; [|discriminate].
    destruct (String.eqb sel "" || String.eqb v ""); [discriminate|].
    do 2 bind_inv H. eapply action_result_timed, H. }
  destruct (String.eqb (action step) "verify").
  { destruct (selector step) as [sel|]; [|discriminate].
    destruct (String.eqb sel ""); [discriminate|].
    do 2 bind_inv H. eapply action_result_timed, H. }
  destruct (String.eqb (action step) "wait").
  { do 2 bind_inv H. eapply action_result_timed, H. }
  destruct (String.eqb (action step) "screenshot"); [|discriminate].
  do 3 bind_inv H.
  apply (f_equal (fun p => value_or ∅ (fst p))) in H. simpl in H. subst r.
  split; eexists; reflexivity.
Qed.

(** What the [wait] branch does. *)
Lemma wait_action self step n :
  action step = "wait" ->
  _execute_action self step n =
  (start_time <~ read time_time ;;
   wait_time <~ (if truthy_str (value step) then
                   n <~ builtin (int_str (default "" (value step))) ;;
                   ret (Some n)
                 else ret (timeout step)) ;;
   time_sleep wait_time ;;;
   action_result step n start_time).
Proof. intros H. unfold _execute_action. rewrite H. reflexivity. Qed.

(** What the [verify] branch does when a selector is given. *)
Lemma verify_action self step n sel :
  action step = "verify" -> selector step = Some sel -> sel <> "" ->
  _execute_action self step n =
  (start_time <~ read time_time ;;
   element <~ call (wait_visible (driver self) (or_int (timeout step) 10) sel) ;;
   (if truthy_str (value step) then
      let v := default "" (value step) in
      element_text <~ call (element_text element) ;;
      if negb (str_in v element_text) then
        raise (AssertionError ("Expected '" +:+ v +:+
                 "' not found in element text: '" +:+ element_text +:+ "'"))
      else ret tt
    else ret tt) ;;;
   action_result step n start_time).
Proof.
  intros Ha Hs Hne. unfold _execute_action. rewrite Ha, Hs.
  apply String.eqb_neq in Hne. rewrite Hne. reflexivity.
Qed.

End Actions.

(** ** Claims about the step executor *)

Section ExecutorClaims.
Context {P : Platform}.

(** C2: whatever the step, the world and the faults its action raises,
    [execute_step] returns a step result, never an exception, and the
    result is passed or failed.  It is failed exactly when the action
    faulted on all three attempts (each retry two seconds after the fault
    before it), and then it carries attempt 3 and the message and the kind
    of the third fault; it is passed exactly when one of the three attempts
    returned, and then it is that attempt's own result, marked passed,
    with the attempt's number. *)
Theorem execute_step_contains_faults self step n w :
  exists r w',
    execute_step self step n w = (Ok (Some r), w') /\
    (r !! "status" = Some (VStr "passed") \/
     r !! "status" = Some (VStr "failed")) /\
    (r !! "status" = Some (VStr "failed") <->
     exists e1 w1 e2 w2 e3 w3,
       _execute_action self step n w = (Raise e1, w1) /\
       _execute_action self step n (after_delay w1) = (Raise e2, w2) /\
       _execute_action self step n (after_delay w2) = (Raise e3, w3)) /\
    (forall e1 w1 e2 w2 e3 w3,
       _execute_action self step n w = (Raise e1, w1) ->
       _execute_action self step n (after_delay w1) = (Raise e2, w2) ->
       _execute_action self step n (after_delay w2) = (Raise e3, w3) ->
       r !! "status" = Some (VStr "failed") /\
       r !! "attempt" = Some (VInt 3) /\
       r !! "error" = Some (VStr (ex_msg e3)) /\
       r !! "error_type" = Some (VStr (ex_type e3))) /\
    (r !! "status" = Some (VStr "passed") ->
     exists k r0,
       r = passed_result k r0 /\
       ((k = 1 /\ _execute_action self step n w = (Ok r0, w')) \/
        (k = 2 /\ exists e1 w1,
           _execute_action self step n w = (Raise e1, w1) /\
           _execute_action self step n (after_delay w1) = (Ok r0, w')) \/
        (k = 3 /\ exists e1 w1 e2 w2,
           _execute_action self step n w = (Raise e1, w1) /\
           _execute_action self step n (after_delay w1) = (Raise e2, w2) /\
           _execute_action self step n (after_delay w2) = (Ok r0, w')))).
Proof.
  rewrite execute_step_retry_policy. unfold retry_policy.
  destruct (_execute_action self step n w) as [[r1|e1] w1] eqn:H1.
  { eexists _, _. split; [reflexivity|]. rewrite passed_status.
    split; [now left|].
    split; [split; [discriminate | intros (? & ? & ? & ? & ? & ? & ? & _); discriminate]|].
    split; [intros; discriminate|].
    intros _. exists 1, r1. split; [reflexivity|]. left. now split. }
  destruct (_execute_action self step n (after_delay w1)) as [[r2|e2] w2] eqn:H2.
  { eexists _, _. split; [reflexivity|]. rewrite passed_status.
    split; [now left|].
    split; [split; [discriminate|];
            intros (? & ? & ? & ? & ? & ? & [= <- <-] & Hb & _);
            rewrite H2 in Hb; discriminate|].
    split; [intros ? ? ? ? ? ? [= <- <-] Hb; rewrite H2 in Hb; discriminate|].
    intros _. exists 2, r2. split; [reflexivity|]. right. left.
    split; [reflexivity|]. now exists e1, w1. }
  destruct (_execute_action self step n (after_delay w2)) as [[r3|e3] w3] eqn:H3.
  { eexists _, _. split; [reflexivity|]. rewrite passed_status.
    split; [now left|].
    split; [split; [discriminate|];
            intros (? & ? & ? & ? & ? & ? & [= <- <-] & Hb & Hc);
            rewrite H2 in Hb; injection Hb as <- <-;
            rewrite H3 in Hc; discriminate|].
    split; [intros ? ? ? ? ? ? [= <- <-] Hb Hc; rewrite H2 in Hb;
            injection Hb as <- <-; rewrite H3 in Hc; discriminate|].
    intros _. exists 3, r3. split; [reflexivity|]. right. right.
    split; [reflexivity|]. now exists e1, w1, e2, w2. }
  cbv zeta.
  destruct (driver_save_screenshot (driver self) (failed_path self n) (w_env w3))
    as [[[]|e4] env4];
    (eexists _, _; split; [reflexivity|]; rewrite failed_status;
     split; [now right|];
     split; [split; [intros _; now exists e1, w1, e2, w2, e3, w3 | reflexivity]|];
     split; [|discriminate];
     intros ? ? ? ? ? ? [= <- <-] Hb Hc; rewrite H2 in Hb;
     injection Hb as <- <-; rewrite H3 in Hc; injection Hc as <- <-;
     repeat split; reflexivity).
Qed.

(** C3, as amended: a step whose action faults on all three attempts yields
    a failed result with attempt 3, the fault's message and kind, and, when
    the capture of the failure screenshot succeeds, a screenshot path that
    ends in [_FAILED.png]; the runner's loop then goes on with the remaining
    steps, the failure counted. *)
Theorem exhausted_step_fails_and_run_continues
    self step n w e1 w1 e2 w2 e3 w3 :
  _execute_action self step n w = (Raise e1, w1) ->
  _execute_action self step n (after_delay w1) = (Raise e2, w2) ->
  _execute_action self step n (after_delay w2) = (Raise e3, w3) ->
  exists r w',
    execute_step self step n w = (Ok (Some r), w') /\
    r !! "status" = Some (VStr "failed") /\
    r !! "attempt" = Some (VInt 3) /\
    r !! "error" = Some (VStr (ex_msg e3)) /\
    r !! "error_type" = Some (VStr (ex_type e3)) /\
    (forall env4,
       driver_save_screenshot (driver self) (failed_path self n) (w_env w3)
         = (Ok tt, env4) ->
       r !! "screenshot" = Some (VStr (failed_path self n)) /\
       str_endswith (failed_path self n) "_FAILED.png") /\
    (forall rest acc passed failed,
       for_steps self (step :: rest) n acc passed failed w =
       for_steps self rest (n + 1) (acc ++ [r])%list passed (failed + 1) w').
Proof.
  intros H1 H2 H3.
  assert (Hloop : forall r w',
    execute_step self step n w = (Ok (Some r), w') ->
    r !! "status" = Some (VStr "failed") ->
    forall rest acc passed failed,
      for_steps self (step :: rest) n acc passed failed w =
      for_steps self rest (n + 1) (acc ++ [r])%list passed (failed + 1) w').
  { intros r w' Hr Hst rest acc p f. cbn [for_steps].
    rewrite (bind_Ok _ _ _ _ _ Hr). now rewrite Hst. }
  pose proof (execute_step_retry_policy self step n w) as Hexec.
  unfold retry_policy in Hexec. rewrite H1, H2, H3 in Hexec. cbv zeta in Hexec.
  destruct (driver_save_screenshot (driver self) (failed_path self n) (w_env w3))
    as [[[]|e4] env4] eqn:Hshot.
  - eexists _, _. split; [exact Hexec|].
    repeat (split; [reflexivity|]). split.
    + intros env4' Heq. split; [reflexivity | apply failed_path_suffix].
    + apply (Hloop _ _ Hexec). reflexivity.
  - eexists _, _. split; [exact Hexec|].
    repeat (split; [reflexivity|]). split.
    + intros env4' Heq. discriminate.
    + apply (Hloop _ _ Hexec). reflexivity.
Qed.

(** C4: the loop of [execute_step] is the policy of three attempts at most
    with the fixed two-second delay before each retry; when the action
    faults on attempts 1 and 2 and succeeds on attempt 3, the result is the
    action's own result marked passed with attempt 3, and the world is the
    one the third attempt left: no failure screenshot is taken. *)
Theorem retry_policy_third_attempt_passes self step n :
  (forall w, execute_step self step n w = retry_policy self step n w) /\
  (forall w e1 w1 e2 w2 r3 w3,
     _execute_action self step n w = (Raise e1, w1) ->
     _execute_action self step n (after_delay w1) = (Raise e2, w2) ->
     _execute_action self step n (after_delay w2) = (Ok r3, w3) ->
     exists r,
       execute_step self step n w = (Ok (Some r), w3) /\
       r !! "status" = Some (VStr "passed") /\
       r !! "attempt" = Some (VInt 3) /\
       r !! "screenshot" = r3 !! "screenshot").
Proof.
  split; [apply execute_step_retry_policy|].
  intros w e1 w1 e2 w2 r3 w3 H1 H2 H3.
  exists (passed_result 3 r3).
  rewrite execute_step_retry_policy. unfold retry_policy.
  rewrite H1, H2, H3. split; [reflexivity|].
  split; [apply passed_status|]. split; [apply passed_attempt|].
  now apply passed_other.
Qed.

(** C10: when the action faults on all three attempts and the capture of
    the failure screenshot faults too, that fault stays inside the capture
    helper: the step still returns a failed result with attempt 3, and its
    screenshot is [None]. *)
Theorem capture_fault_is_contained self step n w e1 w1 e2 w2 e3 w3 e4 env4 :
  _execute_action self step n w = (Raise e1, w1) ->
  _execute_action self step n (after_delay w1) = (Raise e2, w2) ->
  _execute_action self step n (after_delay w2) = (Raise e3, w3) ->
  driver_save_screenshot (driver self) (failed_path self n) (w_env w3)
    = (Raise e4, env4) ->
  _capture_failure_screenshot self n w3 = (Ok None, set_env env4 w3) /\
  exists r,
    execute_step self step n w = (Ok (Some r), set_env env4 w3) /\
    r !! "status" = Some (VStr "failed") /\
    r !! "attempt" = Some (VInt 3) /\
    r !! "screenshot" = Some VNone.
Proof.
  intros H1 H2 H3 Hshot. split.
  - unfold _capture_failure_screenshot, try_except, bind, call, ret.
    fold (failed_path self n). now rewrite Hshot.
  - rewrite execute_step_retry_policy. unfold retry_policy.
    rewrite H1, H2, H3. cbv zeta. rewrite Hshot.
    eexists. split; [reflexivity|]. repeat split; reflexivity.
Qed.




(** C9, as amended: every step result carries a timestamp; a passed result
    carries a duration too, a failed result carries none. *)
Theorem step_result_timestamp_and_duration self step n w r w' :
  execute_step self step n w = (Ok (Some r), w') ->
  (exists ts, r !! "timestamp" = Some (VStr ts)) /\
  (r !! "status" = Some (VStr "passed") ->
     exists d, r !! "duration" = Some (VFloat d)) /\
  (r !! "status" = Some (VStr "failed") -> r !! "duration" = None).
Proof.
  rewrite execute_step_retry_policy. unfold retry_policy.
  assert (Hpass : forall a r0 wa wb,
    _execute_action self step n wa = (Ok r0, wb) ->
    (exists ts, passed_result a r0 !! "timestamp" = Some (VStr ts)) /\
    (passed_result a r0 !! "status" = Some (VStr "passed") ->
       exists d, passed_result a r0 !! "duration" = Some (VFloat d)) /\
    (passed_result a r0 !! "status" = Some (VStr "failed") ->
       passed_result a r0 !! "duration" = None)).
  { intros a r0 wa wb Hact. apply _execute_action_timed in Hact as [Hd Ht].
    rewrite (passed_other "timestamp"), (passed_other "duration") by discriminate.
    rewrite passed_status.
    split; [exact Ht|]. split; [intros _; exact Hd | discriminate]. }
  assert (Hfail : forall e shot ts,
    let f := failed_result step n e shot 3 ts in
    (exists ts, f !! "timestamp" = Some (VStr ts)) /\
    (f !! "status" = Some (VStr "passed") ->
       exists d, f !! "duration" = Some (VFloat d)) /\
    (f !! "status" = Some (VStr "failed") -> f !! "duration" = None)).
  { intros e shot ts f. subst f. rewrite failed_status, failed_duration.
    split; [eexists; apply failed_timestamp|]. split; [discriminate | reflexivity]. }
  assert (Hinv : forall (a b : gmap string pyval) (wa wb : world),
    (Ok (Some a), wa) = (Ok (Some b), wb) -> a = b).
  { intros a b wa wb Heq.
    apply (f_equal (fun p => returned ∅ (fst p))) in Heq. exact Heq. }
  destruct (_execute_action self step n w) as [[r1|e1] w1] eqn:H1.
  { intros Heq. apply Hinv in Heq. subst r. eapply Hpass, H1. }
  destruct (_execute_action self step n (after_delay w1)) as [[r2|e2] w2] eqn:H2.
  { intros Heq. apply Hinv in Heq. subst r. eapply Hpass, H2. }
  destruct (_execute_action self step n (after_delay w2)) as [[r3|e3] w3] eqn:H3.
  { intros Heq. apply Hinv in Heq. subst r. eapply Hpass, H3. }
  cbv zeta.
  destruct (driver_save_screenshot (driver self) (failed_path self n) (w_env w3))
    as [[[]|e4] env4];
    intros Heq; apply Hinv in Heq; subst r; apply Hfail.
Qed.

End ExecutorClaims.

(** ** The step executor on the scripted browser *)

Import Scripted.

Lemma exhausted_step_fails_and_run_continues_witness :
  exists r w',
    execute_step exec bogus_step 1 (start (showing "hi")) = (Ok (Some r), w') /\
    r !! "status" = Some (VStr "failed") /\
    r !! "attempt" = Some (VInt 3) /\
    r !! "screenshot" = Some (VStr "screenshots/t1_step_1_FAILED.png").
Proof.
  pose (w := start (showing "hi")).
  pose (e := ValueError "Unknown action: bogus").
  destruct (exhausted_step_fails_and_run_continues exec bogus_step 1
              w e w e (after_delay w) e (after_delay (after_delay w)))
    as (r & w' & Hr & Hst & Hat & _ & _ & Hshot & _);
    [vm_compute; reflexivity | vm_compute; reflexivity
    | vm_compute; reflexivity |].
  exists r, w'. split; [exact Hr|]. split; [exact Hst|]. split; [exact Hat|].
  eapply (Hshot (snd (driver_save_screenshot 0%nat (failed_path exec 1)
                        (w_env (after_delay (after_delay w)))))).
  vm_compute. reflexivity.
Defined.

(** C3 as the claim words it fails where the capture of the failure
    screenshot faults: the action faults on all three attempts, and the
    failed result has no screenshot path. *)
Lemma exhausted_step_without_screenshot :
  let w := start blind in
  let e := ValueError "Unknown action: bogus" in
  _execute_action exec bogus_step 1 w = (Raise e, w) /\
  _execute_action exec bogus_step 1 (after_delay w) = (Raise e, after_delay w) /\
  _execute_action exec bogus_step 1 (after_delay (after_delay w))
    = (Raise e, after_delay (after_delay w)) /\
  ~ (exists r w' path,
       execute_step exec bogus_step 1 w = (Ok (Some r), w') /\
       r !! "screenshot" = Some (VStr path) /\
       str_endswith path "_FAILED.png").
Proof.
  cbv zeta.
  split; [vm_compute; reflexivity|].
  split; [vm_compute; reflexivity|].
  split; [vm_compute; reflexivity|].
  intros (r & w' & path & Hr & Hshot & _).
  apply (f_equal (fun p => match fst p with
                           | Ok (Some d) => d !! "screenshot"
                           | _ => None
                           end)) in Hr.
  cbn beta iota delta [fst] in Hr. rewrite Hshot in Hr.
  vm_compute in Hr. discriminate.
Qed.

Lemma retry_policy_third_attempt_passes_witness :
  exists r w',
    execute_step exec click_step 1 (start slow) = (Ok (Some r), w') /\
    r !! "status" = Some (VStr "passed") /\
    r !! "attempt" = Some (VInt 3) /\
    r !! "screenshot" = None /\
    calls (w_env w') =
      ["wait #go"; "sleep 2"; "wait #go"; "sleep 2"; "wait #go"; "click #go"].
Proof.
  pose (e := TimeoutException "Message: ").
  pose (w1 := World (Browser "hi" 1 true true true true 0 0 ["wait #go"]) ∅ []).
  pose (w2 := World (Browser "hi" 0 true true true true 0 2
                       ["wait #go"; "sleep 2"; "wait #go"]) ∅ []).
  pose (a3 := _execute_action exec click_step 1 (after_delay w2)).
  assert (H1 : _execute_action exec click_step 1 (start slow) = (Raise e, w1))
    by (vm_compute; reflexivity).
  assert (H2 : _execute_action exec click_step 1 (after_delay w1) = (Raise e, w2))
    by (vm_compute; reflexivity).
  assert (H3 : a3 = (Ok (value_or ∅ (fst a3)), snd a3))
    by (apply run_Ok_eta; vm_compute; reflexivity).
  destruct (proj2 (retry_policy_third_attempt_passes exec click_step 1)
              _ _ _ _ _ _ _ H1 H2 H3)
    as (r & Hr & Hst & Hat & Hshot).
  exists r, (snd a3). split; [exact Hr|]. split; [exact Hst|].
  split; [exact Hat|]. split.
  - rewrite Hshot. vm_compute. reflexivity.
  - vm_compute. reflexivity.
Defined.

Lemma capture_fault_is_contained_witness :
  exists r w',
    execute_step exec bogus_step 1 (start blind) = (Ok (Some r), w') /\
    r !! "status" = Some (VStr "failed") /\
    r !! "attempt" = Some (VInt 3) /\
    r !! "screenshot" = Some VNone.
Proof.
  pose (w := start blind).
  pose (e := ValueError "Unknown action: bogus").
  pose (w3 := after_delay (after_delay w)).
  pose (shot := driver_save_screenshot 0%nat (failed_path exec 1) (w_env w3)).
  destruct (capture_fault_is_contained exec bogus_step 1
              w e w e (after_delay w) e w3
              (WebDriverException "save screenshots/t1_step_1_FAILED.png failed")
              (snd shot))
    as (_ & r & Hr & Hst & Hat & Hshot);
    [vm_compute; reflexivity | vm_compute; reflexivity
    | vm_compute; reflexivity | vm_compute; reflexivity |].
  exists r, (set_env (snd shot) w3).
  split; [exact Hr|]. split; [exact Hst|]. split; [exact Hat | exact Hshot].
Defined.

(** ** The runner *)

Section Runner.
Context {P : Platform}.

Lemma execute_step_status self step n w :
  exists r w',
    execute_step self step n w = (Ok (Some r), w') /\
    (r !! "status" = Some (VStr "passed") \/
     r !! "status" = Some (VStr "failed")).
Proof.
  rewrite execute_step_retry_policy. unfold retry_policy.
  destruct (_execute_action self step n w) as [[r1|e1] w1].
  { eexists _, _. split; [reflexivity|]. left. apply passed_status. }
  destruct (_execute_action self step n (after_delay w1)) as [[r2|e2] w2].
  { eexists _, _. split; [reflexivity|]. left. apply passed_status. }
  destruct (_execute_action self step n (after_delay w2)) as [[r3|e3] w3].
  { eexists _, _. split; [reflexivity|]. left. apply passed_status. }
  cbv zeta.
  destruct (driver_save_screenshot (driver self) (failed_path self n) (w_env w3))
    as [[[]|e4] env4];
    (eexists _, _; split; [reflexivity|]; right; reflexivity).
Qed.

(** The loop over the steps never raises, and each step adds one to exactly
    one of the two counters. *)
Lemma for_steps_counts executor todo :
  forall idx acc passed failed w,
  exists acc' passed' failed' w',
    for_steps executor todo idx acc passed failed w
      = (Ok (acc', passed', failed'), w') /\
    passed' + failed' = passed + failed + Z.of_nat (length todo) /\
    length acc' = (length acc + length todo)%nat /\
    passed <= passed' /\ failed <= failed'.
Proof.
  induction todo as [|step rest IH]; intros idx acc p f w.
  - exists acc, p, f, w. cbn [for_steps length]. unfold ret.
    split; [reflexivity|]. split; [lia|]. split; [lia|]. lia.
  - destruct (execute_step_status executor step idx w) as (r & w1 & Hr & Hst).
    cbn [for_steps]. rewrite (bind_Ok _ _ _ _ _ Hr).
    destruct Hst as [Hst|Hst]; rewrite Hst; cbn [str_eq String.eqb Ascii.eqb Bool.eqb].
    + destruct (IH (idx + 1) (acc ++ [r])%list (p + 1) f w1)
        as (acc' & p' & f' & w' & Hrun & Hsum & Hlen & Hp & Hf).
      exists acc', p', f', w'. split; [exact Hrun|].
      rewrite length_app in Hlen. cbn [length] in *. repeat split; lia.
    + destruct (IH (idx + 1) (acc ++ [r])%list p (f + 1) w1)
        as (acc' & p' & f' & w' & Hrun & Hsum & Hlen & Hp & Hf).
      exists acc', p', f', w'. split; [exact Hrun|].
      rewrite length_app in Hlen. cbn [length] in *. repeat split; lia.
Qed.

Lemma notify_run request r w : notify request r w = (Ok tt, notified request r w).
Proof. unfold notify, notified. now destruct (truthy_str (webhook_url request)). Qed.

Lemma on_error_None request start_time e w :
  on_error request start_time None e w =
  let r := error_result request
             (round2 (fsub (time_time (w_env w)) start_time)) e None
             (now_isoformat (w_env w)) in
  (Ok r, notified request r w).
Proof.
  unfold on_error, bind, read, ret. cbv beta iota zeta.
  rewrite notify_run. reflexivity.
Qed.

Lemma on_error_Some request start_time d e w :
  on_error request start_time (Some d) e w =
  let env' := snd (driver_save_screenshot d (error_path request) (w_env w)) in
  let r := error_result request
             (round2 (fsub (time_time (w_env w)) start_time)) e
             (Some (error_path request)) (now_isoformat env') in
  (Ok r, notified request r (set_env env' w)).
Proof.
  unfold on_error, bind, read, ret, try_except, call. cbv beta iota zeta.
  fold (error_path request).
  destruct (driver_save_screenshot d (error_path request) (w_env w))
    as [[[]|e'] env']; cbv beta iota; rewrite notify_run; reflexivity.
Qed.

(** The [finally] block never raises; it leaves the callbacks alone and
    the platform sees [quit] once when a driver was acquired. *)
Lemma cleanup_run drv w :
  exists w',
    cleanup drv w = (Ok tt, w') /\
    background_tasks w' = background_tasks w /\
    w_env w' = match drv with
               | Some d => snd (driver_quit d (w_env w))
               | None => w_env w
               end.
Proof.
  destruct drv as [d|]; [|exists w; repeat split].
  unfold cleanup, try_except, bind, call, deregister, ret.
  destruct (driver_quit d (w_env w)) as [[[]|e] env']; cbv beta iota;
    eexists; (split; [reflexivity|]); split; reflexivity.
Qed.

Lemma try_finally_cleanup {A} (body : M A) drv w r w1 :
  body w = (r, w1) ->
  exists w',
    try_finally body (cleanup drv) w = (r, w') /\
    cleanup drv w1 = (Ok tt, w').
Proof.
  intros Hb. destruct (cleanup_run drv w1) as (w' & Hc & _).
  exists w'. unfold try_finally. rewrite Hb, Hc. split; reflexivity.
Qed.

(** A session either completes with PASS or FAIL and balanced counters, or
    raises. *)
Lemma run_session_outcome request start_time d w :
  (exists r w',
     run_session request start_time d w = (Ok r, w') /\
     (status r = "PASS" \/ status r = "FAIL") /\
     steps_executed r = steps_passed r + steps_failed r /\
     (status r = "PASS" <-> steps_failed r = 0) /\
     length (detailed_results r) = length (steps request)) \/
  (exists e w', run_session request start_time d w = (Raise e, w')).
Proof.
  unfold run_session.
  destruct (uuid4 (w_env w)) as [sid env2] eqn:Hu.
  rewrite (bind_Ok _ _ w sid (set_env env2 w))
    by (unfold call; now rewrite Hu).
  set (w2 := World env2 (<[sid := d]> (active_drivers w)) (background_tasks w)).
  rewrite (bind_Ok _ _ (set_env env2 w) tt w2) by reflexivity.
  destruct (driver_get d (Some (url request)) env2) as [[[]|e] env3] eqn:Hg.
  2:{ right. exists e, (set_env env3 w2).
      apply bind_Raise. unfold call. cbn [w2 w_env]. now rewrite Hg. }
  left.
  rewrite (bind_Ok _ _ w2 tt (set_env env3 w2))
    by (unfold call; cbn [w2 w_env]; now rewrite Hg).
  match goal with |- context [for_steps ?ex ?todo ?i ?acc ?p ?f] =>
    destruct (for_steps_counts ex todo i acc p f (set_env env3 w2))
      as (acc' & p' & f' & w4 & Hrun & Hsum & Hlen & Hp & Hf)
  end.
  rewrite (bind_Ok _ _ _ _ _ Hrun). cbv beta iota.
  unfold bind, read, ret. cbv beta iota zeta. rewrite notify_run.
  eexists _, _. split; [reflexivity|]. cbn [status steps_executed steps_passed
    steps_failed detailed_results]. cbn [length] in Hlen.
  split; [destruct (f' =? 0); auto|].
  split; [lia|]. split; [|lia].
  destruct (Z.eqb_spec f' 0); split; intros; (congruence || discriminate).
Qed.

End Runner.

(** ** Claims about the runner *)

Section RunnerClaims.
Context {P : Platform}.

Lemma notified_env request r w : w_env (notified request r w) = w_env w.
Proof. unfold notified. now destruct (truthy_str (webhook_url request)). Qed.

Lemma notified_tasks request r w :
  background_tasks (notified request r w) =
  (background_tasks w ++
   if truthy_str (webhook_url request)
   then [(default "" (webhook_url request), r)] else [])%list.
Proof.
  unfold notified. destruct (truthy_str (webhook_url request)); cbn.
  - reflexivity.
  - now rewrite app_nil_r.
Qed.

Lemma call_Driver request w :
  call (Driver (browser request) (headless request)) w =
  (fst (Driver (browser request) (headless request) (w_env w)),
   set_env (snd (Driver (browser request) (headless request) (w_env w))) w).
Proof.
  unfold call.
  now destruct (Driver (browser request) (headless request) (w_env w)).
Qed.

(** C1: every run returns a result whose status is PASS, FAIL or ERROR;
    with PASS or FAIL the steps executed are the passed plus the failed
    ones, with ERROR the three counters are 0. *)
Theorem step_counters_balance request w :
  exists r w',
    execute_test request w = (Ok r, w') /\
    (status r = "PASS" \/ status r = "FAIL" \/ status r = "ERROR") /\
    (status r = "PASS" \/ status r = "FAIL" ->
       steps_executed r = steps_passed r + steps_failed r) /\
    (status r = "ERROR" ->
       steps_executed r = 0 /\ steps_passed r = 0 /\ steps_failed r = 0).
Proof.
  unfold execute_test. rewrite call_Driver.
  destruct (Driver (browser request) (headless request) (w_env w))
    as [[d|e] env1]; cbn [fst snd].
  - set (st := time_time (w_env w)).
    destruct (run_session_outcome request st d (set_env env1 w))
      as [(r & w2 & Hrun & Hst & Hsum & _) | (e & w2 & Hrun)].
    + destruct (try_finally_cleanup
                  (try_except (run_session request st d)
                              (on_error request st (Some d)))
                  (Some d) (set_env env1 w) (Ok r) w2) as (w' & Hfin & _).
      { unfold try_except. now rewrite Hrun. }
      exists r, w'. split; [exact Hfin|].
      split; [tauto|]. split; [intros _; exact Hsum|].
      intros Herr. destruct Hst as [Hst|Hst]; rewrite Hst in Herr; discriminate.
    + pose proof (on_error_Some request st d e w2) as Herr. cbv zeta in Herr.
      destruct (try_finally_cleanup
                  (try_except (run_session request st d)
                              (on_error request st (Some d)))
                  (Some d) (set_env env1 w) _ _
                  ltac:(unfold try_except; rewrite Hrun; exact Herr))
        as (w' & Hfin & _).
      eexists _, w'. split; [exact Hfin|]. cbn [status error_result
        steps_executed steps_passed steps_failed].
      split; [tauto|]. split; [|intros _; repeat split].
      intros [Hst|Hst]; discriminate.
  - set (st := time_time (w_env w)).
    pose proof (on_error_None request st e (set_env env1 w)) as Herr.
    cbv zeta in Herr.
    destruct (try_finally_cleanup (on_error request st None e) None
                (set_env env1 w) _ _ Herr) as (w' & Hfin & _).
    eexists _, w'. split; [exact Hfin|]. cbn [status error_result
      steps_executed steps_passed steps_failed].
    split; [tauto|]. split; [|intros _; repeat split].
    intros [Hst|Hst]; discriminate.
Qed.

(** C5: when [Driver(...)] faults, or when it succeeds and the first
    [driver.get(url)] faults, the handler still returns a result: status
    ERROR, the error message set, the three counters 0, no step results.
    Nothing is tried again: after a creation fault the platform is left as
    that one call left it; after a navigation fault it sees one capture and
    one quit.  The screenshot path is recorded whenever a driver exists.
    At most one callback is queued. *)
Theorem run_level_fault_gives_error_result request w :
  (forall e env1,
     Driver (browser request) (headless request) (w_env w) = (Raise e, env1) ->
     exists r w',
       execute_test request w = (Ok r, w') /\
       status r = "ERROR" /\
       error_message r = Some (ex_type e +:+ ": " +:+ ex_msg e) /\
       steps_executed r = 0 /\ steps_passed r = 0 /\ steps_failed r = 0 /\
       detailed_results r = [] /\
       screenshot_url r = None /\
       w_env w' = env1 /\
       active_drivers w' = active_drivers w /\
       background_tasks w' =
         (background_tasks w ++
          if truthy_str (webhook_url request)
          then [(default "" (webhook_url request), r)] else [])%list) /\
  (forall d env1 sid env2 e env3,
     Driver (browser request) (headless request) (w_env w) = (Ok d, env1) ->
     uuid4 env1 = (sid, env2) ->
     driver_get d (Some (url request)) env2 = (Raise e, env3) ->
     exists r w',
       execute_test request w = (Ok r, w') /\
       status r = "ERROR" /\
       error_message r = Some (ex_type e +:+ ": " +:+ ex_msg e) /\
       steps_executed r = 0 /\ steps_passed r = 0 /\ steps_failed r = 0 /\
       detailed_results r = [] /\
       screenshot_url r = Some (error_path request) /\
       w_env w' =
         snd (driver_quit d
                (snd (driver_save_screenshot d (error_path request) env3))) /\
       background_tasks w' =
         (background_tasks w ++
          if truthy_str (webhook_url request)
          then [(default "" (webhook_url request), r)] else [])%list).
Proof.
  split.
  - intros e env1 Hd. unfold execute_test. rewrite call_Driver, Hd. cbn [fst snd].
    set (st := time_time (w_env w)).
    pose proof (on_error_None request st e (set_env env1 w)) as Herr.
    cbv zeta in Herr.
    unfold try_finally. rewrite Herr. cbn [cleanup]. unfold ret.
    eexists _, _. split; [reflexivity|].
    cbn [status error_message steps_executed steps_passed steps_failed
         detailed_results screenshot_url error_result].
    repeat (split; [reflexivity|]).
    split; [now rewrite notified_env|].
    split; [unfold notified; now destruct (truthy_str (webhook_url request))|].
    now rewrite notified_tasks.
  - intros d env1 sid env2 e env3 Hd Hu Hg.
    unfold execute_test. rewrite call_Driver, Hd. cbn [fst snd].
    set (st := time_time (w_env w)).
    set (w2 := World env2 (<[sid := d]> (active_drivers w)) (background_tasks w)).
    assert (Hrun : run_session request st d (set_env env1 w)
                   = (Raise e, set_env env3 w2)).
    { unfold run_session.
      rewrite (bind_Ok _ _ (set_env env1 w) sid (set_env env2 (set_env env1 w)))
        by (unfold call; cbn [set_env w_env]; now rewrite Hu).
      rewrite (bind_Ok _ _ _ tt w2) by reflexivity.
      apply bind_Raise. unfold call. cbn [w2 w_env]. now rewrite Hg. }
    pose proof (on_error_Some request st d e (set_env env3 w2)) as Herr.
    cbv zeta in Herr. cbn [set_env w_env] in Herr.
    destruct (try_finally_cleanup
                (try_except (run_session request st d)
                            (on_error request st (Some d)))
                (Some d) (set_env env1 w) _ _
                ltac:(unfold try_except; rewrite Hrun; exact Herr))
      as (w' & Hfin & Hclean).
    match type of Hclean with cleanup _ ?x = _ =>
      destruct (cleanup_run (Some d) x) as (w'' & Hclean' & Htasks & Henv)
    end.
    rewrite Hclean in Hclean'.
    assert (w'' = w') as -> by congruence.
    eexists _, w'. split; [exact Hfin|].
    cbn [status error_message steps_executed steps_passed steps_failed
         detailed_results screenshot_url error_result].
    repeat (split; [reflexivity|]).
    split.
    + rewrite Henv, notified_env. reflexivity.
    + rewrite Htasks, notified_tasks. reflexivity.
Qed.

End RunnerClaims.

(** ** The step executor on the scripted browser, continued *)




(** C9 as the claim words it fails on a failed step: its result has no
    duration. *)
Lemma failed_step_result_has_no_duration :
  exists r w',
    execute_step exec bogus_step 1 (start (showing "hi")) = (Ok (Some r), w') /\
    r !! "status" = Some (VStr "failed") /\
    r !! "timestamp" = Some (VStr "T+4") /\
    r !! "duration" = None.
Proof.
  set (x := execute_step exec bogus_step 1 (start (showing "hi"))).
  exists (returned ∅ (fst x)), (snd x).
  split; [apply run_Some_eta; vm_compute; reflexivity|].
  split; [vm_compute; reflexivity|]. split; vm_compute; reflexivity.
Qed.

Lemma step_result_timestamp_and_duration_witness :
  exists r w',
    execute_step exec click_step 1 (start (showing "hi")) = (Ok (Some r), w') /\
    (exists ts, r !! "timestamp" = Some (VStr ts)) /\
    (exists d, r !! "duration" = Some (VFloat d)).
Proof.
  set (x := execute_step exec click_step 1 (start (showing "hi"))).
  assert (Hx : x = (Ok (Some (returned ∅ (fst x))), snd x))
    by (apply run_Some_eta; vm_compute; reflexivity).
  destruct (step_result_timestamp_and_duration exec click_step 1
              (start (showing "hi")) _ _ Hx) as (Hts & Hd & _).
  exists (returned ∅ (fst x)), (snd x).
  split; [exact Hx|]. split; [exact Hts|].
  apply Hd. vm_compute. reflexivity.
Defined.

(** ** The runner on the scripted browser *)

Lemma step_counters_balance_witness :
  exists r w',
    execute_test (request_of [click_step; bogus_step]) (start (showing "hi"))
      = (Ok r, w') /\
    status r = "FAIL" /\
    steps_executed r = steps_passed r + steps_failed r.
Proof.
  destruct (step_counters_balance (request_of [click_step; bogus_step])
              (start (showing "hi"))) as (r & w' & Hr & _ & Hsum & _).
  assert (Hst : status r = "FAIL").
  { apply (f_equal (fun p => status (result_of p))) in Hr.
    vm_compute in Hr. symmetry. exact Hr. }
  exists r, w'. split; [exact Hr|]. split; [exact Hst|].
  apply Hsum. right. exact Hst.
Defined.

Lemma run_level_fault_gives_error_result_witness :
  (exists r w',
     execute_test (request_of [click_step]) (start broken) = (Ok r, w') /\
     status r = "ERROR" /\ steps_executed r = 0 /\ detailed_results r = [] /\
     error_message r = Some "WebDriverException: session not created" /\
     screenshot_url r = None /\
     calls (w_env w') = ["Driver"]) /\
  (exists r w',
     execute_test (request_of [click_step]) (start offline) = (Ok r, w') /\
     status r = "ERROR" /\ steps_executed r = 0 /\ detailed_results r = [] /\
     screenshot_url r = Some "screenshots/t1_ERROR.png" /\
     calls (w_env w') =
       ["Driver"; "get http://example.test"; "save screenshots/t1_ERROR.png";
        "quit"]).
Proof.
  split.
  - destruct (proj1 (run_level_fault_gives_error_result
                       (request_of [click_step]) (start broken))
                (WebDriverException "session not created") (log "Driver" broken))
      as (r & w' & Hr & Hst & Hmsg & Hex & _ & _ & Hdet & Hshot & Henv & _);
      [vm_compute; reflexivity|].
    exists r, w'. split; [exact Hr|]. split; [exact Hst|]. split; [exact Hex|].
    split; [exact Hdet|]. split; [exact Hmsg|]. split; [exact Hshot|].
    rewrite Henv. vm_compute. reflexivity.
  - pose (env1 := Browser "hi" 0 true false true true 1 0 ["Driver"]).
    destruct (proj2 (run_level_fault_gives_error_result
                       (request_of [click_step]) (start offline))
                0%nat env1 "uuid-1" env1
                (WebDriverException "get http://example.test failed")
                (log "get http://example.test" env1))
      as (r & w' & Hr & Hst & _ & Hex & _ & _ & Hdet & Hshot & Henv & _);
      [vm_compute; reflexivity | vm_compute; reflexivity
      | vm_compute; reflexivity |].
    exists r, w'. split; [exact Hr|]. split; [exact Hst|]. split; [exact Hex|].
    split; [exact Hdet|]. split; [exact Hshot|].
    rewrite Henv. vm_compute. reflexivity.
Defined.

(** C6 at a browser whose [quit] faults: the run passes, and the entry
    that the run registered is still in the registry afterwards. *)
Theorem registry_entry_left_when_quit_faults :
  let w := start stuck in
  exists r w',
    execute_test (request_of []) w = (Ok r, w') /\
    status r = "PASS" /\
    active_drivers w = ∅ /\
    active_drivers w' !! "uuid-1" = Some 0%nat /\
    calls (w_env w') = ["Driver"; "get http://example.test"; "quit"].
Proof.
  cbv zeta.
  set (x := execute_test (request_of []) (start stuck)).
  exists (result_of x), (snd x).
  split; [apply run_Ok_eta; vm_compute; reflexivity|].
  split; [vm_compute; reflexivity|]. split; [reflexivity|].
  split; vm_compute; reflexivity.
Qed.

(** ** The session registry *)

Section Registry.
Context {P : Platform}.

Lemma keeps_ret {A} (a : A) : keeps_registry (ret a).
Proof. intros w. reflexivity. Qed.

Lemma keeps_raise {A} e : keeps_registry (@raise _ A e).
Proof. intros w. reflexivity. Qed.

Lemma keeps_read {A} (f : env -> A) : keeps_registry (read f).
Proof. intros w. reflexivity. Qed.

Lemma keeps_call {A} (op : env -> outcome A * env) : keeps_registry (call op).
Proof. intros w. unfold call. now destruct (op (w_env w)). Qed.

Lemma keeps_bind {A B} (m : M A) (k : A -> M B) :
  keeps_registry m -> (forall a, keeps_registry (k a)) ->
  keeps_registry (bind m k).
Proof.
  intros Hm Hk w. unfold bind. specialize (Hm w).
  destruct (m w) as [[a|e] w1]; cbn [snd] in *.
  - now rewrite Hk.
  - exact Hm.
Qed.

Lemma keeps_try_except {A} (body : M A) (handler : exn -> M A) :
  keeps_registry body -> (forall e, keeps_registry (handler e)) ->
  keeps_registry (try_except body handler).
Proof.
  intros Hb Hh w. unfold try_except. specialize (Hb w).
  destruct (body w) as [[a|e] w1]; cbn [snd] in *.
  - exact Hb.
  - now rewrite Hh.
Qed.

Lemma keeps_sleep secs : keeps_registry (time_sleep secs).
Proof.
  intros w. unfold time_sleep, raise. destruct secs as [n|]; [|reflexivity].
  now destruct (sleep_fault n (w_env w)).
Qed.

Lemma keeps_builtin {A} (o : outcome A) : keeps_registry (builtin o).
Proof. intros w. reflexivity. Qed.

Lemma keeps_notify request r : keeps_registry (notify request r).
Proof.
  intros w. unfold notify, add_task, ret.
  now destruct (truthy_str (webhook_url request)).
Qed.

Ltac keeps :=
  repeat first
    [ apply keeps_ret | apply keeps_raise | apply keeps_read
    | apply keeps_call | apply keeps_sleep | apply keeps_notify
    | apply keeps_builtin
    | apply keeps_bind; [|intros ?]
    | apply keeps_try_except; [|intros ?]
    | match goal with
      | |- keeps_registry (if ?c then _ else _) => destruct c
      | |- keeps_registry (match ?x with _ => _ end) => destruct x
      end ].

Lemma keeps_action self step n : keeps_registry (_execute_action self step n).
Proof. unfold _execute_action, action_result. keeps. Qed.

Lemma keeps_for_attempts self step n attempts :
  keeps_registry (for_attempts self step n attempts).
Proof.
  induction attempts as [|a rest IH]; cbn [for_attempts]; [apply keeps_ret|].
  apply keeps_bind.
  - unfold attempt_body, _capture_failure_screenshot.
    apply keeps_try_except; [|intros e].
    + apply keeps_bind; [apply keeps_action | intros r; apply keeps_ret].
    + keeps.
  - intros [r|]; [apply keeps_ret | exact IH].
Qed.

Lemma keeps_for_steps executor todo :
  forall idx acc passed failed,
    keeps_registry (for_steps executor todo idx acc passed failed).
Proof.
  induction todo as [|step rest IH]; intros idx acc p f; cbn [for_steps].
  - apply keeps_ret.
  - apply keeps_bind; [apply keeps_for_attempts|].
    intros [r|]; [|apply keeps_raise].
    destruct (r !! "status") as [st|]; [|apply keeps_raise].
    destruct (str_eq st "passed"); apply IH.
Qed.

(** The deletion loop of the [finally] block removes exactly the entries
    that hold the driver. *)
Lemma drop_entries_lookup (d : handle) (items : list (string * handle)) :
  forall (reg : gmap string handle) k,
    foldl (fun reg (item : string * handle) =>
             if decide (item.2 = d) then delete item.1 reg else reg)
          reg items !! k
    = if decide ((k, d) ∈ items) then None else reg !! k.
Proof.
  induction items as [|[sid d'] rest IH]; intros reg k; cbn [foldl].
  - destruct (decide ((k, d) ∈ [])) as [Hin|_]; [|reflexivity].
    now apply elem_of_nil in Hin.
  - rewrite IH. cbn [fst snd].
    destruct (decide ((k, d) ∈ rest)) as [Hin|Hout].
    + rewrite decide_True by (right; exact Hin). reflexivity.
    + destruct (decide (d' = d)) as [->|Hd].
      * destruct (decide (k = sid)) as [->|Hk].
        -- rewrite decide_True by left. apply lookup_delete_eq.
        -- rewrite decide_False.
           ++ now apply lookup_delete_ne.
           ++ intros Hin. apply elem_of_cons in Hin as [Heq|Hin];
                [congruence | contradiction].
      * rewrite decide_False; [reflexivity|].
        intros Hin. apply elem_of_cons in Hin as [Heq|Hin];
          [congruence | contradiction].
Qed.

Lemma deregister_lookup d w k :
  active_drivers (snd (deregister d w)) !! k =
  if decide (active_drivers w !! k = Some d) then None
  else active_drivers w !! k.
Proof.
  unfold deregister. cbn [snd active_drivers]. rewrite drop_entries_lookup.
  destruct (decide ((k, d) ∈ map_to_list (active_drivers w))) as [Hin|Hout].
  - apply elem_of_map_to_list in Hin. now rewrite decide_True.
  - rewrite decide_False; [reflexivity|].
    intros Hk. apply Hout. now apply elem_of_map_to_list.
Qed.


(** The session part of a run leaves the registry with the one new entry,
    however it ends. *)
Lemma run_session_registers request start_time d w sid env2 :
  uuid4 (w_env w) = (sid, env2) ->
  active_drivers (snd (run_session request start_time d w))
    = <[sid := d]> (active_drivers w).
Proof.
  intros Hu. unfold run_session.
  rewrite (bind_Ok _ _ w sid (set_env env2 w))
    by (unfold call; now rewrite Hu).
  set (w2 := World env2 (<[sid := d]> (active_drivers w)) (background_tasks w)).
  rewrite (bind_Ok _ _ (set_env env2 w) tt w2) by reflexivity.
  change (<[sid := d]> (active_drivers w)) with (active_drivers w2).
  match goal with |- active_drivers (snd (?m w2)) = _ =>
    assert (Hk : keeps_registry m); [|apply Hk]
  end.
  apply keeps_bind; [apply keeps_call | intros _].
  apply keeps_bind; [apply keeps_for_steps | intros [[acc p] f]].
  keeps.
Qed.


End Registry.

(** * Further properties *)

(** ** More on the actions *)

Section MoreActions.
Context {P : Platform}.

(** A step whose action raises the same fault in every world, without
    touching the world, fails after two delays and one capture. *)
Lemma constant_fault_fails self step n e w :
  (forall w0, _execute_action self step n w0 = (Raise e, w0)) ->
  exists r w',
    execute_step self step n w = (Ok (Some r), w') /\
    r !! "status" = Some (VStr "failed") /\
    r !! "attempt" = Some (VInt 3) /\
    r !! "error_type" = Some (VStr (ex_type e)) /\
    r !! "error" = Some (VStr (ex_msg e)) /\
    w_env w' =
      snd (driver_save_screenshot (driver self) (failed_path self n)
             (elapse 2 (elapse 2 (w_env w)))).
Proof.
  intros Hact. rewrite execute_step_retry_policy. unfold retry_policy.
  rewrite !Hact. cbv zeta. cbn [after_delay set_env w_env].
  destruct (driver_save_screenshot (driver self) (failed_path self n)
              (elapse 2 (elapse 2 (w_env w)))) as [[[]|e4] env4];
    (eexists _, _; split; [reflexivity|]; repeat (split; [reflexivity|]);
     reflexivity).
Qed.

Lemma unknown_action_raises self step n w :
  known_action (action step) = false ->
  _execute_action self step n w =
  (Raise (ValueError ("Unknown action: " +:+ action step)), w).
Proof.
  unfold known_action. intros H.
  apply orb_false_iff in H as [H H6]. apply orb_false_iff in H as [H H5].
  apply orb_false_iff in H as [H H4]. apply orb_false_iff in H as [H H3].
  apply orb_false_iff in H as [H1 H2].
  unfold _execute_action, bind, read.
  rewrite H1, H2, H3, H4, H5, H6. reflexivity.
Qed.

(** X1: a step whose action is none of the six fails with the
    [ValueError] "Unknown action: ..." after the third attempt; the retries
    are still made, and the browser sees nothing but the two delays and the
    failure capture. *)
Theorem unknown_action_exhausts_retries self step n w :
  known_action (action step) = false ->
  exists r w',
    execute_step self step n w = (Ok (Some r), w') /\
    r !! "status" = Some (VStr "failed") /\
    r !! "attempt" = Some (VInt 3) /\
    r !! "error_type" = Some (VStr "ValueError") /\
    r !! "error" = Some (VStr ("Unknown action: " +:+ action step)) /\
    w_env w' =
      snd (driver_save_screenshot (driver self) (failed_path self n)
             (elapse 2 (elapse 2 (w_env w)))).
Proof.
  intros Hk.
  apply (constant_fault_fails self step n
           (ValueError ("Unknown action: " +:+ action step)) w).
  intros w0. now apply unknown_action_raises.
Qed.

Lemma missing_required_raises self step n :
  missing_required step = true ->
  exists msg, forall w,
    _execute_action self step n w = (Raise (ValueError msg), w).
Proof.
  unfold missing_required. intros H.
  destruct (String.eqb_spec (action step) "click") as [Ha|_].
  { exists "Selector is required for click action". intros w.
    unfold _execute_action. rewrite Ha in *. cbn in H.
    rewrite !orb_false_r in H.
    destruct (selector step) as [sel|]; [|reflexivity].
    cbn in H. apply negb_true_iff in H. apply negb_false_iff in H.
    unfold bind, read. cbn. now rewrite H. }
  destruct (String.eqb_spec (action step) "type_text") as [Ha|_].
  { exists "Selector and value are required for type_text action". intros w.
    unfold _execute_action. rewrite Ha in *. cbn in H.
    rewrite !orb_false_r in H. unfold bind, read. cbn.
    destruct (selector step) as [sel|]; [|reflexivity].
    destruct (value step) as [v|]; [|reflexivity].
    cbn in H. rewrite !negb_involutive in H. now rewrite H. }
  destruct (String.eqb_spec (action step) "verify") as [Ha|_];
    [|discriminate].
  exists "Selector is required for verify action". intros w.
  unfold _execute_action. rewrite Ha in *. cbn in H.
  destruct (selector step) as [sel|]; [|reflexivity].
  cbn in H. apply negb_true_iff in H. apply negb_false_iff in H.
  unfold bind, read. cbn. now rewrite H.
Qed.

(** X2: a [click] or [verify] step without a selector, and a [type_text]
    step without a selector or without a value (absent or empty), raises a
    [ValueError] before any call to the browser: the world is the one the
    action found.  The step fails with that kind after the third attempt. *)
Theorem missing_field_fails_before_any_browser_call self step n w :
  missing_required step = true ->
  (exists msg, forall w0,
      _execute_action self step n w0 = (Raise (ValueError msg), w0)) /\
  exists r w',
    execute_step self step n w = (Ok (Some r), w') /\
    r !! "status" = Some (VStr "failed") /\
    r !! "attempt" = Some (VInt 3) /\
    r !! "error_type" = Some (VStr "ValueError").
Proof.
  intros Hm. destruct (missing_required_raises self step n Hm) as (msg & Hact).
  split; [now exists msg|].
  destruct (constant_fault_fails self step n (ValueError msg) w Hact)
    as (r & w' & Hr & Hst & Hat & Hty & _).
  now exists r, w'.
Qed.

End MoreActions.

Section MoreActions2.
Context {P : Platform}.

Ltac bind_inv H :=
  let a := fresh "a" in
  let w := fresh "w" in
  let Hm := fresh "Hm" in
  apply bind_Ok_inv in H as (a & w & Hm & H).

(** X3: a [verify] step with a selector and no value (absent or empty)
    only waits for the element: when the wait returns, the action returns
    in the world the wait left (the text is not read) and the step passes
    on the first attempt; when the wait faults, the action raises that
    fault. *)
Theorem verify_without_value_only_waits self step n sel w :
  action step = "verify" -> selector step = Some sel -> sel <> "" ->
  truthy_str (value step) = false ->
  match wait_visible (driver self) (or_int (timeout step) 10) sel (w_env w) with
  | (Ok _, env1) =>
      exists r,
        _execute_action self step n w = (Ok r, set_env env1 w) /\
        execute_step self step n w
          = (Ok (Some (passed_result 1 r)), set_env env1 w)
  | (Raise e, env1) =>
      _execute_action self step n w = (Raise e, set_env env1 w)
  end.
Proof.
  intros Ha Hs Hne Hv.
  rewrite execute_step_retry_policy. unfold retry_policy.
  rewrite (verify_action self step n sel Ha Hs Hne).
  unfold bind, read, call. rewrite Hv.
  destruct (wait_visible (driver self) (or_int (timeout step) 10) sel (w_env w))
    as [[el|e] env1]; [|reflexivity].
  unfold ret. cbv beta iota. rewrite action_result_run.
  eexists. split; reflexivity.
Qed.

(** X4: on [click], [type_text] and [verify] a timeout of [None] or of 0 is
    replaced by 10 seconds: the step behaves as the same step with timeout
    10. *)
Theorem falsy_timeout_waits_ten_seconds self step n w :
  action step = "click" \/ action step = "type_text" \/ action step = "verify" ->
  timeout step = None \/ timeout step = Some 0 ->
  _execute_action self step n w
    = _execute_action self (with_timeout (Some 10) step) n w /\
  execute_step self step n w
    = execute_step self (with_timeout (Some 10) step) n w.
Proof.
  intros Ha Ht.
  assert (Hact : forall w0,
    _execute_action self step n w0
      = _execute_action self (with_timeout (Some 10) step) n w0).
  { intros w0. unfold _execute_action, action_result.
    cbn [with_timeout action selector value timeout].
    assert (Ho : or_int (timeout step) 10 = or_int (Some 10) 10)
      by (destruct Ht as [-> | ->]; reflexivity).
    destruct Ha as [Ha|[Ha|Ha]]; rewrite Ha; cbn [String.eqb Ascii.eqb Bool.eqb];
      rewrite Ho; reflexivity. }
  split; [apply Hact|].
  rewrite !execute_step_retry_policy. unfold retry_policy.
  rewrite <- Hact.
  destruct (_execute_action self step n w) as [[r1|e1] w1]; [reflexivity|].
  rewrite <- Hact.
  destruct (_execute_action self step n (after_delay w1)) as [[r2|e2] w2];
    [reflexivity|].
  rewrite <- Hact.
  destruct (_execute_action self step n (after_delay w2)) as [[r3|e3] w3];
    reflexivity.
Qed.

(** What one attempt of a [wait] step does. *)
Lemma wait_attempt_with_duration self step k d w :
  action step = "wait" -> wait_duration step = Some d ->
  _execute_action self step k w =
  match sleep_fault d (w_env w) with
  | None =>
      action_result step k (time_time (w_env w))
                    (set_env (elapse d (w_env w)) w)
  | Some e => (Raise e, w)
  end.
Proof.
  intros Ha Hd. rewrite (wait_action self step k Ha).
  unfold wait_duration in Hd.
  rewrite (bind_Ok _ _ w (time_time (w_env w)) w) by reflexivity.
  assert (Hwt :
    (if truthy_str (value step)
     then n0 <~ builtin (int_str (default "" (value step))) ;; ret (Some n0)
     else ret (timeout step)) w = (Ok (Some d), w)).
  { destruct (truthy_str (value step)).
    - unfold bind, builtin, ret.
      destruct (int_str (default "" (value step))) as [m|e];
        [now injection Hd as -> | discriminate].
    - unfold ret. now rewrite Hd. }
  rewrite (bind_Ok _ _ _ _ _ Hwt).
  destruct (sleep_fault d (w_env w)) as [e|] eqn:Hs.
  - apply bind_Raise. unfold time_sleep. now rewrite Hs.
  - now rewrite (bind_Ok _ _ _ _ _ (time_sleep_ok d w Hs)).
Qed.

Lemma wait_attempt_without_duration self step k w :
  action step = "wait" -> wait_duration step = None ->
  _execute_action self step k w = (Raise (wait_refusal step), w).
Proof.
  intros Ha Hd. rewrite (wait_action self step k Ha).
  unfold wait_duration in Hd. unfold wait_refusal.
  rewrite (bind_Ok _ _ w (time_time (w_env w)) w) by reflexivity.
  destruct (truthy_str (value step)).
  - apply bind_Raise. unfold bind, builtin.
    destruct (int_str (default "" (value step))) as [m|e];
      [discriminate | reflexivity].
  - rewrite (bind_Ok _ _ w (timeout step) w) by reflexivity.
    rewrite Hd. now apply bind_Raise.
Qed.

(** X5: a [wait] step passes exactly when it has a duration ([int(value)]
    for a non-empty value on which [int] returns, the timeout otherwise)
    that [time.sleep] takes at one of the three attempts, which are two
    seconds apart; otherwise it fails after the third attempt.  A step
    without a duration fails with the very exception that [int], or
    [time.sleep(None)], raised. *)
Theorem wait_passes_iff_duration_valid self step k w :
  action step = "wait" ->
  exists r w',
    execute_step self step k w = (Ok (Some r), w') /\
    (r !! "status" = Some (VStr "passed") <->
       exists d, wait_duration step = Some d /\
         (sleep_fault d (w_env w) = None \/
          sleep_fault d (elapse 2 (w_env w)) = None \/
          sleep_fault d (elapse 2 (elapse 2 (w_env w))) = None)) /\
    (r !! "status" <> Some (VStr "passed") ->
       r !! "status" = Some (VStr "failed") /\
       r !! "attempt" = Some (VInt 3)) /\
    (wait_duration step = None ->
       r !! "status" = Some (VStr "failed") /\
       r !! "error_type" = Some (VStr (ex_type (wait_refusal step))) /\
       r !! "error" = Some (VStr (ex_msg (wait_refusal step)))).
Proof.
  intros Ha. destruct (wait_duration step) as [d|] eqn:Hd.
  - pose proof (fun w0 => wait_attempt_with_duration self step k d w0 Ha Hd)
      as Hrun.
    rewrite execute_step_retry_policy. unfold retry_policy.
    rewrite (Hrun w).
    destruct (sleep_fault d (w_env w)) as [e1|] eqn:H1.
    2:{ rewrite action_result_run. eexists _, _. split; [reflexivity|].
        rewrite passed_status. split.
        - split; [intros _; exists d; auto | reflexivity].
        - split; [intros Hne; now exfalso | discriminate]. }
    rewrite (Hrun (after_delay w)).
    change (w_env (after_delay w)) with (elapse 2 (w_env w)).
    destruct (sleep_fault d (elapse 2 (w_env w))) as [e2|] eqn:H2.
    2:{ rewrite action_result_run. eexists _, _. split; [reflexivity|].
        rewrite passed_status. split.
        - split; [intros _; exists d; auto | reflexivity].
        - split; [intros Hne; now exfalso | discriminate]. }
    rewrite (Hrun (after_delay (after_delay w))).
    change (w_env (after_delay (after_delay w)))
      with (elapse 2 (elapse 2 (w_env w))).
    destruct (sleep_fault d (elapse 2 (elapse 2 (w_env w)))) as [e3|] eqn:H3.
    2:{ rewrite action_result_run. eexists _, _. split; [reflexivity|].
        rewrite passed_status. split.
        - split; [intros _; exists d; auto | reflexivity].
        - split; [intros Hne; now exfalso | discriminate]. }
    cbv zeta.
    destruct (driver_save_screenshot (driver self) (failed_path self k)
                (w_env (after_delay (after_delay w)))) as [[[]|e4] env4];
      (eexists _, _; split; [reflexivity|]; rewrite failed_status; split;
       [split; [discriminate|];
        intros (d' & [= <-] & [Hs|[Hs|Hs]]); congruence
       | split; [intros _; split; reflexivity | discriminate]]).
  - pose proof (fun w0 => wait_attempt_without_duration self step k w0 Ha Hd)
      as Hact.
    destruct (constant_fault_fails self step k (wait_refusal step) w Hact)
      as (r & w' & Hr & Hst & Hat & Hety & Herr & _).
    exists r, w'. split; [exact Hr|]. split.
    + split; [rewrite Hst; discriminate | intros (d & Hd' & _); discriminate].
    + split; [intros _; now split | intros _; now split].
Qed.

(** The two shapes of the dict that [_execute_action] returns. *)
Lemma _execute_action_shape self step n w r w' :
  _execute_action self step n w = (Ok r, w') ->
  (String.eqb (action step) "screenshot" = false /\
   exists d ts,
     r = dict_of [("step_number", VInt n); ("action", VStr (action step));
                  ("selector", of_opt_str (selector step));
                  ("value", of_opt_str (value step));
                  ("duration", VFloat d); ("timestamp", VStr ts)]) \/
  (String.eqb (action step) "screenshot" = true /\
   exists d ts,
     r = dict_of [("step_number", VInt n); ("action", VStr (action step));
                  ("screenshot", VStr (step_path self n));
                  ("duration", VFloat d); ("timestamp", VStr ts)]).
Proof.
  assert (Hgen : forall st w0 r0 w1,
    action_result step n st w0 = (Ok r0, w1) ->
    exists d ts,
      r0 = dict_of [("step_number", VInt n); ("action", VStr (action step));
                    ("selector", of_opt_str (selector step));
                    ("value", of_opt_str (value step));
                    ("duration", VFloat d); ("timestamp", VStr ts)]).
  { intros st w0 r0 w1 H. rewrite action_result_run in H.
    apply (f_equal (fun p => value_or ∅ (fst p))) in H. simpl in H. subst r0.
    eexists _, _. reflexivity. }
  unfold _execute_action. intros H. bind_inv H.
  destruct (String.eqb_spec (action step) "open_url") as [Ha|_].
  { left. rewrite Ha at 1. split; [reflexivity|].
    do 2 bind_inv H. eapply Hgen, H. }
  destruct (String.eqb_spec (action step) "click") as [Ha|_].
  { left. rewrite Ha at 1. split; [reflexivity|].
    destruct (selector step) as [sel|]; [|discriminate].
    destruct (String.eqb sel ""); [discriminate|].
    do 2 bind_inv H. eapply Hgen, H. }
  destruct (String.eqb_spec (action step) "type_text") as [Ha|_].
  { left. rewrite Ha at 1. split; [reflexivity|].
    destruct (selector step) as [sel|]; [|discriminate].
    destruct (value step) as [v|]; [|discriminate].
    destruct (String.eqb sel "" || String.eqb v ""); [discriminate|].
    do 2 bind_inv H. eapply Hgen, H. }
  destruct (String.eqb_spec (action step) "verify") as [Ha|_].
  { left. rewrite Ha at 1. split; [reflexivity|].
    destruct (selector step) as [sel|]; [|discriminate].
    destruct (String.eqb sel ""); [discriminate|].
    do 2 bind_inv H. eapply Hgen, H. }
  destruct (String.eqb_spec (action step) "wait") as [Ha|_].
  { left. rewrite Ha at 1. split; [reflexivity|].
    do 2 bind_inv H. eapply Hgen, H. }
  destruct (String.eqb (action step) "screenshot"); [|discriminate].
  right. split; [reflexivity|]. do 3 bind_inv H.
  apply (f_equal (fun p => value_or ∅ (fst p))) in H. simpl in H. subst r.
  eexists _, _. reflexivity.
Qed.

End MoreActions2.

Section ResultFields.
Context {P : Platform}.

Lemma Some_result_inv (a b : gmap string pyval) (wa wb : world) :
  (Ok (Some a), wa) = (Ok (Some b), wb) -> a = b.
Proof.
  intros Heq. apply (f_equal (fun p => returned ∅ (fst p))) in Heq. exact Heq.
Qed.

(** Every result of [execute_step] is a passed action result or the failed
    dict of the third attempt. *)
Lemma execute_step_cases self step n w r w' :
  execute_step self step n w = (Ok (Some r), w') ->
  (exists k r0 wa wb,
     1 <= k <= 3 /\ _execute_action self step n wa = (Ok r0, wb) /\
     r = passed_result k r0) \/
  (exists e shot ts, r = failed_result step n e shot 3 ts).
Proof.
  rewrite execute_step_retry_policy. unfold retry_policy.
  destruct (_execute_action self step n w) as [[r1|e1] w1] eqn:H1.
  { intros Heq. apply Some_result_inv in Heq. subst r. left.
    exists 1, r1, w, w1. split; [lia|]. now split. }
  destruct (_execute_action self step n (after_delay w1)) as [[r2|e2] w2] eqn:H2.
  { intros Heq. apply Some_result_inv in Heq. subst r. left.
    exists 2, r2, (after_delay w1), w2. split; [lia|]. now split. }
  destruct (_execute_action self step n (after_delay w2)) as [[r3|e3] w3] eqn:H3.
  { intros Heq. apply Some_result_inv in Heq. subst r. left.
    exists 3, r3, (after_delay w2), w3. split; [lia|]. now split. }
  cbv zeta.
  destruct (driver_save_screenshot (driver self) (failed_path self n) (w_env w3))
    as [[[]|e4] env4];
    intros Heq; apply Some_result_inv in Heq; subst r; right;
    eexists _, _, _; reflexivity.
Qed.

(** X6: every step result names its step: it carries the step number it
    was given and the step's action, and an attempt count from 1 to 3; a
    failed result always has attempt 3 and carries an error message, an
    error kind and a screenshot entry. *)
Theorem step_result_names_its_step self step n w r w' :
  execute_step self step n w = (Ok (Some r), w') ->
  r !! "step_number" = Some (VInt n) /\
  r !! "action" = Some (VStr (action step)) /\
  (exists k, r !! "attempt" = Some (VInt k) /\ 1 <= k <= 3) /\
  (r !! "status" = Some (VStr "failed") ->
     r !! "attempt" = Some (VInt 3) /\
     (exists msg, r !! "error" = Some (VStr msg)) /\
     (exists kind, r !! "error_type" = Some (VStr kind)) /\
     is_Some (r !! "screenshot")).
Proof.
  intros Hr. apply execute_step_cases in Hr
    as [(k & r0 & wa & wb & Hk & Hact & ->) | (e & shot & ts & ->)].
  - rewrite (passed_other "step_number"), (passed_other "action") by discriminate.
    rewrite passed_status, passed_attempt.
    apply _execute_action_shape in Hact
      as [(_ & d & ts & ->) | (_ & d & ts & ->)];
      (split; [reflexivity|]; split; [reflexivity|];
       split; [now exists k | discriminate]).
  - split; [reflexivity|]. split; [reflexivity|].
    split; [exists 3; split; [reflexivity | lia]|].
    intros _. split; [reflexivity|]. split; [eexists; reflexivity|].
    split; [eexists; reflexivity|]. eexists. reflexivity.
Qed.

(** X7: a passed result has no error entries.  For a [screenshot] step it
    carries the path [screenshots/{test_id}_step_{n}.png] and neither
    selector nor value; for every other action it carries the step's
    selector and value and no screenshot. *)
Theorem passed_result_shape self step n w r w' :
  execute_step self step n w = (Ok (Some r), w') ->
  r !! "status" = Some (VStr "passed") ->
  r !! "error" = None /\ r !! "error_type" = None /\
  if String.eqb (action step) "screenshot"
  then r !! "screenshot" = Some (VStr (step_path self n)) /\
       r !! "selector" = None /\ r !! "value" = None
  else r !! "screenshot" = None /\
       r !! "selector" = Some (of_opt_str (selector step)) /\
       r !! "value" = Some (of_opt_str (value step)).
Proof.
  intros Hr Hst. apply execute_step_cases in Hr
    as [(k & r0 & wa & wb & Hk & Hact & ->) | (e & shot & ts & ->)].
  - rewrite (passed_other "error"), (passed_other "error_type"),
      (passed_other "screenshot"), (passed_other "selector"),
      (passed_other "value") by discriminate.
    apply _execute_action_shape in Hact
      as [(Ha & d & ts & ->) | (Ha & d & ts & ->)]; rewrite Ha;
      repeat split; reflexivity.
  - rewrite failed_status in Hst. discriminate.
Qed.

(** X8: an [open_url] step navigates to its value when that is non-empty
    and to its selector otherwise.  When the navigation returns, the action
    sleeps one second and the step passes on the first attempt; when it
    faults, the action raises that fault without sleeping. *)
Theorem open_url_target self step n w :
  action step = "open_url" ->
  let target := if truthy_str (value step) then value step else selector step in
  match driver_get (driver self) target (w_env w) with
  | (Ok _, env1) =>
      exists r,
        execute_step self step n w
          = (Ok (Some r), set_env (elapse 1 env1) w) /\
        r !! "status" = Some (VStr "passed") /\
        r !! "attempt" = Some (VInt 1)
  | (Raise e, env1) =>
      _execute_action self step n w = (Raise e, set_env env1 w)
  end.
Proof.
  intros Ha. cbv zeta. fold (or_str (value step) (selector step)).
  assert (Hrun : _execute_action self step n w =
    match driver_get (driver self) (or_str (value step) (selector step))
            (w_env w) with
    | (Ok _, env1) =>
        action_result step n (time_time (w_env w)) (set_env (elapse 1 env1) w)
    | (Raise e, env1) => (Raise e, set_env env1 w)
    end).
  { unfold _execute_action. rewrite Ha. cbn [String.eqb Ascii.eqb Bool.eqb].
    rewrite (bind_Ok _ _ w (time_time (w_env w)) w) by reflexivity.
    destruct (driver_get (driver self) (or_str (value step) (selector step))
                (w_env w)) as [[[]|e] env1] eqn:Hg.
    - rewrite (bind_Ok _ _ w tt (set_env env1 w))
        by (unfold call; now rewrite Hg).
      rewrite (bind_Ok _ _ (set_env env1 w) tt
                 (set_env (elapse 1 env1) w))
        by (rewrite time_sleep_ok by apply sleep_1; reflexivity).
      reflexivity.
    - apply bind_Raise. unfold call. now rewrite Hg. }
  rewrite execute_step_retry_policy. unfold retry_policy. rewrite Hrun.
  destruct (driver_get (driver self) (or_str (value step) (selector step))
              (w_env w)) as [[[]|e] env1]; [|reflexivity].
  rewrite action_result_run.
  eexists. split; [reflexivity|]. split; [apply passed_status | apply passed_attempt].
Qed.

(** X9: [click] and [type_text] do not touch an element that did not become
    visible: when the wait faults, the action raises that fault and the
    browser is as the wait left it. *)
Theorem no_click_or_typing_before_visible self step n sel w e env1 :
  action step = "click" \/
  (action step = "type_text" /\ truthy_str (value step) = true) ->
  selector step = Some sel -> sel <> "" ->
  wait_visible (driver self) (or_int (timeout step) 10) sel (w_env w)
    = (Raise e, env1) ->
  _execute_action self step n w = (Raise e, set_env env1 w).
Proof.
  intros Ha Hs Hne Hw. apply String.eqb_neq in Hne.
  unfold _execute_action. rewrite Hs.
  destruct Ha as [Ha | [Ha Hv]]; rewrite Ha; cbn [String.eqb Ascii.eqb Bool.eqb].
  - rewrite Hne. unfold bind, read, call. now rewrite Hw.
  - destruct (value step) as [v|]; [|discriminate].
    cbn in Hv. apply negb_true_iff in Hv. rewrite Hne, Hv. cbn [orb].
    unfold bind, read, call. now rewrite Hw.
Qed.

End ResultFields.

(** ** What the steps leave alone *)

Section Frame.
Context {P : Platform} {B : Type}.
Variable proj : world -> B.
Hypothesis proj_env : forall e w, proj (set_env e w) = proj w.

Lemma preserves_ret {A} (a : A) : preserves proj (ret a).
Proof. intros w. reflexivity. Qed.

Lemma preserves_raise {A} e : preserves proj (@raise _ A e).
Proof. intros w. reflexivity. Qed.

Lemma preserves_read {A} (f : env -> A) : preserves proj (read f).
Proof. intros w. reflexivity. Qed.

Lemma preserves_call {A} (op : env -> outcome A * env) : preserves proj (call op).
Proof. intros w. unfold call. destruct (op (w_env w)). apply proj_env. Qed.

Lemma preserves_bind {A C} (m : M A) (k : A -> M C) :
  preserves proj m -> (forall a, preserves proj (k a)) ->
  preserves proj (bind m k).
Proof.
  intros Hm Hk w. unfold bind. specialize (Hm w).
  destruct (m w) as [[a|e] w1]; cbn [snd] in *.
  - now rewrite Hk.
  - exact Hm.
Qed.

Lemma preserves_try_except {A} (body : M A) (handler : exn -> M A) :
  preserves proj body -> (forall e, preserves proj (handler e)) ->
  preserves proj (try_except body handler).
Proof.
  intros Hb Hh w. unfold try_except. specialize (Hb w).
  destruct (body w) as [[a|e] w1]; cbn [snd] in *.
  - exact Hb.
  - now rewrite Hh.
Qed.

Lemma preserves_sleep secs : preserves proj (time_sleep secs).
Proof.
  intros w. unfold time_sleep, raise. destruct secs as [n|]; [|reflexivity].
  destruct (sleep_fault n (w_env w)); [reflexivity | apply proj_env].
Qed.

Lemma preserves_builtin {A} (o : outcome A) : preserves proj (builtin o).
Proof. intros w. reflexivity. Qed.

Ltac frame :=
  repeat first
    [ apply preserves_ret | apply preserves_raise | apply preserves_read
    | apply preserves_call | apply preserves_sleep | apply preserves_builtin
    | apply preserves_bind; [|intros ?]
    | apply preserves_try_except; [|intros ?]
    | match goal with
      | |- preserves _ (if ?c then _ else _) => destruct c
      | |- preserves _ (match ?x with _ => _ end) => destruct x
      end ].

Lemma preserves_action self step n : preserves proj (_execute_action self step n).
Proof. unfold _execute_action, action_result. frame. Qed.

Lemma preserves_execute_step self step n :
  preserves proj (execute_step self step n).
Proof.
  unfold execute_step.
  induction (py_range (Z.to_nat (max_retries + 1))) as [|a rest IH];
    cbn [for_attempts]; [apply preserves_ret|].
  apply preserves_bind.
  - unfold attempt_body, _capture_failure_screenshot.
    apply preserves_try_except; [|intros e].
    + apply preserves_bind; [apply preserves_action | intros r; apply preserves_ret].
    + frame.
  - intros [r|]; [apply preserves_ret | exact IH].
Qed.

Lemma preserves_for_steps executor todo :
  forall idx acc passed failed,
    preserves proj (for_steps executor todo idx acc passed failed).
Proof.
  induction todo as [|step rest IH]; intros idx acc p f; cbn [for_steps].
  - apply preserves_ret.
  - apply preserves_bind; [apply preserves_execute_step|].
    intros [r|]; [|apply preserves_raise].
    destruct (r !! "status") as [st|]; [|apply preserves_raise].
    destruct (str_eq st "passed"); apply IH.
Qed.

End Frame.

(** ** The results of a run *)

Section RunResults.
Context {P : Platform}.

Lemma execute_step_ids self step n w r w' :
  execute_step self step n w = (Ok (Some r), w') ->
  r !! "step_number" = Some (VInt n) /\
  r !! "action" = Some (VStr (action step)).
Proof.
  intros Hr. apply execute_step_cases in Hr
    as [(k & r0 & wa & wb & Hk & Hact & ->) | (e & shot & ts & ->)].
  - rewrite (passed_other "step_number"), (passed_other "action") by discriminate.
    apply _execute_action_shape in Hact
      as [(_ & d & ts & ->) | (_ & d & ts & ->)]; split; reflexivity.
  - split; reflexivity.
Qed.

Lemma count_status_cons s (r : gmap string pyval) rs :
  count_status s (r :: rs) =
  (if has_status s r then 1 else 0) + count_status s rs.
Proof.
  unfold count_status. rewrite filter_cons.
  destruct (has_status s r).
  - rewrite decide_True by reflexivity. cbn [length]. lia.
  - rewrite decide_False by discriminate. lia.
Qed.

Lemma has_status_passed (r : gmap string pyval) :
  r !! "status" = Some (VStr "passed") ->
  has_status "passed" r = true /\ has_status "failed" r = false.
Proof. intros H. unfold has_status. rewrite H. split; reflexivity. Qed.

Lemma has_status_failed (r : gmap string pyval) :
  r !! "status" = Some (VStr "failed") ->
  has_status "passed" r = false /\ has_status "failed" r = true.
Proof. intros H. unfold has_status. rewrite H. split; reflexivity. Qed.

(** What the loop over the steps returns: the results so far followed by
    one result per step, in order, numbered from [idx], and the two counters
    raised by the numbers of passed and of failed results. *)
Lemma for_steps_results executor todo :
  forall idx acc p f w acc' p' f' w',
    for_steps executor todo idx acc p f w = (Ok (acc', p', f'), w') ->
    exists new,
      acc' = (acc ++ new)%list /\
      length new = length todo /\
      (forall i step, todo !! i = Some step ->
         exists d, new !! i = Some d /\
           d !! "step_number" = Some (VInt (idx + Z.of_nat i)) /\
           d !! "action" = Some (VStr (action step))) /\
      p' = p + count_status "passed" new /\
      f' = f + count_status "failed" new /\
      Forall (fun d => d !! "status" = Some (VStr "passed") \/
                       d !! "status" = Some (VStr "failed")) new.
Proof.
  induction todo as [|step rest IH]; intros idx acc p f w acc' p' f' w' H.
  - cbn [for_steps] in H. unfold ret in H.
    apply (f_equal (fun x => value_or ([], 0, 0) (fst x))) in H. cbn in H.
    injection H as <- <- <-. exists []. rewrite app_nil_r.
    split; [reflexivity|]. split; [reflexivity|].
    split; [intros i step Hi; rewrite lookup_nil in Hi; discriminate|].
    unfold count_status. cbn. split; [lia|]. split; [lia|]. constructor.
  - cbn [for_steps] in H.
    apply bind_Ok_inv in H as (a & w1 & Hstep & H).
    destruct a as [r|]; [|discriminate].
    destruct (execute_step_ids executor step idx w r w1 Hstep) as [Hnum Hact].
    destruct (execute_step_status executor step idx w)
      as (r' & w1' & Hr' & Hst).
    rewrite Hstep in Hr'. apply Some_result_inv in Hr'. subst r'.
    assert (Hnext : exists p1 f1,
      for_steps executor rest (idx + 1) (acc ++ [r])%list p1 f1 w1
        = (Ok (acc', p', f'), w') /\
      p1 = p + (if has_status "passed" r then 1 else 0) /\
      f1 = f + (if has_status "failed" r then 1 else 0)).
    { destruct Hst as [Hst|Hst]; rewrite Hst in H;
        cbn [str_eq String.eqb Ascii.eqb Bool.eqb] in H.
      - destruct (has_status_passed r Hst) as [-> ->].
        exists (p + 1), f. split; [exact H|]. split; lia.
      - destruct (has_status_failed r Hst) as [-> ->].
        exists p, (f + 1). split; [exact H|]. split; lia. }
    destruct Hnext as (p1 & f1 & Hrun & Hp1 & Hf1).
    destruct (IH _ _ _ _ _ _ _ _ _ Hrun)
      as (new & Hacc & Hlen & Hnth & Hp & Hf & Hall).
    exists (r :: new). split; [now rewrite Hacc, <- app_assoc|].
    split; [cbn [length]; now rewrite Hlen|].
    split.
    { intros [|i] step' Hi; cbn in Hi.
      - injection Hi as <-. exists r. split; [reflexivity|].
        rewrite Z.add_0_r. now split.
      - destruct (Hnth i step' Hi) as (d & Hd & Hdn & Hda).
        exists d. split; [exact Hd|]. split; [|exact Hda].
        rewrite Hdn. f_equal. f_equal. lia. }
    rewrite !count_status_cons. split; [lia|]. split; [lia|].
    constructor; [exact Hst | exact Hall].
Qed.

End RunResults.

Section RunShape.
Context {P : Platform}.

Lemma Ok_inv {A} (a b : A) (wa wb : world) :
  (Ok a, wa) = (Ok b, wb) -> a = b /\ wa = wb.
Proof. intros H. injection H as -> ->. now split. Qed.

(** What a session that returns has done. *)
Lemma run_session_inv request st d w r w' :
  run_session request st d w = (Ok r, w') ->
  exists sid env2 env3 acc p f w4,
    uuid4 (w_env w) = (sid, env2) /\
    driver_get d (Some (url request)) env2 = (Ok tt, env3) /\
    for_steps {| driver := d; self_test_id := req_test_id request |}
      (steps request) 1 [] 0 0
      (World env3 (<[sid := d]> (active_drivers w)) (background_tasks w))
      = (Ok (acc, p, f), w4) /\
    status r = (if f =? 0 then "PASS" else "FAIL") /\
    steps_executed r = Z.of_nat (length (steps request)) /\
    steps_passed r = p /\ steps_failed r = f /\ detailed_results r = acc /\
    error_message r = None /\ screenshot_url r = None /\
    w' = notified request r w4.
Proof.
  unfold run_session. intros H.
  destruct (uuid4 (w_env w)) as [sid env2] eqn:Hu.
  rewrite (bind_Ok _ _ w sid (set_env env2 w)) in H
    by (unfold call; now rewrite Hu).
  set (w2 := World env2 (<[sid := d]> (active_drivers w)) (background_tasks w))
    in *.
  rewrite (bind_Ok _ _ (set_env env2 w) tt w2) in H by reflexivity.
  destruct (driver_get d (Some (url request)) env2) as [[[]|e] env3] eqn:Hg.
  2:{ rewrite (bind_Raise _ _ w2 e (set_env env3 w2)) in H
        by (unfold call; cbn [w2 w_env]; now rewrite Hg).
      discriminate. }
  rewrite (bind_Ok _ _ w2 tt (set_env env3 w2)) in H
    by (unfold call; cbn [w2 w_env]; now rewrite Hg).
  apply bind_Ok_inv in H as ([[acc p] f] & w4 & Hrun & H).
  unfold bind, read, ret in H. cbv beta iota zeta in H.
  rewrite notify_run in H. apply Ok_inv in H as [<- <-].
  exists sid, env2, env3, acc, p, f, w4.
  split; [reflexivity|]. split; [exact Hg|]. split; [exact Hrun|].
  repeat split.
Qed.

(** A run returns either the ERROR result of its handler or the result of
    its session. *)
Lemma execute_test_cases request w r w' :
  execute_test request w = (Ok r, w') ->
  (exists e dur shot ts, r = error_result request dur e shot ts) \/
  (exists d env1 w2,
     Driver (browser request) (headless request) (w_env w) = (Ok d, env1) /\
     run_session request (time_time (w_env w)) d (set_env env1 w) = (Ok r, w2) /\
     cleanup (Some d) w2 = (Ok tt, w')).
Proof.
  unfold execute_test. rewrite call_Driver.
  destruct (Driver (browser request) (headless request) (w_env w))
    as [[d|e] env1]; cbn [fst snd].
  - unfold try_finally, try_except.
    destruct (run_session request (time_time (w_env w)) d (set_env env1 w))
      as [[r1|e] w2] eqn:Hrun.
    + destruct (cleanup_run (Some d) w2) as (w3 & Hc & _). rewrite Hc.
      intros H. apply Ok_inv in H as [<- <-]. right. now exists d, env1, w2.
    + rewrite on_error_Some. cbv beta iota zeta.
      match goal with |- context [cleanup (Some d) ?x] =>
        destruct (cleanup_run (Some d) x) as (w3 & Hc & _); rewrite Hc end.
      intros H. apply Ok_inv in H as [<- _]. left.
      eexists _, _, _, _. reflexivity.
  - unfold try_finally. rewrite on_error_None. cbv beta iota zeta. cbn [cleanup].
    unfold ret. intros H. apply Ok_inv in H as [<- _]. left.
    eexists _, _, _, _. reflexivity.
Qed.

(** X10: in the result of a run that is not an ERROR, [detailed_results]
    holds one result per requested step, in the order of the request: the
    i-th result has step number i (counted from 1) and the action of the
    i-th step. *)
Theorem detailed_results_follow_the_steps request w r w' :
  execute_test request w = (Ok r, w') ->
  status r <> "ERROR" ->
  length (detailed_results r) = length (steps request) /\
  forall i step,
    steps request !! i = Some step ->
    exists d,
      detailed_results r !! i = Some d /\
      d !! "step_number" = Some (VInt (Z.of_nat i + 1)) /\
      d !! "action" = Some (VStr (action step)).
Proof.
  intros H Hst. apply execute_test_cases in H
    as [(e & dur & shot & ts & ->) | (d & env1 & w2 & _ & Hrun & _)].
  { exfalso. apply Hst. reflexivity. }
  apply run_session_inv in Hrun
    as (sid & env2 & env3 & acc & p & f & w4 & _ & _ & Hloop & _ & _ & _ & _ &
        Hdet & _).
  apply for_steps_results in Hloop
    as (new & Hacc & Hlen & Hnth & _). cbn [app] in Hacc. subst acc.
  rewrite Hdet. split; [exact Hlen|].
  intros i step Hi. destruct (Hnth i step Hi) as (d' & Hd & Hn & Ha).
  exists d'. split; [exact Hd|]. split; [|exact Ha].
  rewrite Hn. f_equal. f_equal. lia.
Qed.

Lemma count_failed_zero (rs : list (gmap string pyval)) :
  Forall (fun d => d !! "status" = Some (VStr "passed") \/
                   d !! "status" = Some (VStr "failed")) rs ->
  (count_status "failed" rs = 0 <->
   Forall (fun d => d !! "status" = Some (VStr "passed")) rs).
Proof.
  induction 1 as [|d rs Hd Hall IH].
  - split; [constructor | reflexivity].
  - rewrite count_status_cons.
    assert (Hge : 0 <= count_status "failed" rs)
      by (unfold count_status; lia).
    destruct Hd as [Hd|Hd].
    + destruct (has_status_passed d Hd) as [_ ->]. split.
      * intros H0. constructor; [exact Hd | apply IH; lia].
      * intros HF. inversion HF; subst. apply IH in H2. lia.
    + destruct (has_status_failed d Hd) as [_ ->]. split; [lia|].
      intros HF. inversion HF; subst. rewrite Hd in H1. discriminate.
Qed.

(** X11: in every result of a run, [steps_passed] is the number of step
    results with status passed and [steps_failed] the number with status
    failed; the run is a PASS exactly when it is no ERROR and every step
    result is passed. *)
Theorem counters_count_the_results request w r w' :
  execute_test request w = (Ok r, w') ->
  steps_passed r = count_status "passed" (detailed_results r) /\
  steps_failed r = count_status "failed" (detailed_results r) /\
  (status r = "PASS" <->
   status r <> "ERROR" /\
   Forall (fun d => d !! "status" = Some (VStr "passed")) (detailed_results r)).
Proof.
  intros H. apply execute_test_cases in H
    as [(e & dur & shot & ts & ->) | (d & env1 & w2 & _ & Hrun & _)].
  { cbn [error_result steps_passed steps_failed detailed_results status].
    split; [reflexivity|]. split; [reflexivity|].
    split; [discriminate | intros [Hne _]; now exfalso]. }
  apply run_session_inv in Hrun
    as (sid & env2 & env3 & acc & p & f & w4 & _ & _ & Hloop & Hst & _ & Hp &
        Hf & Hdet & _).
  apply for_steps_results in Hloop
    as (new & Hacc & _ & _ & Hcp & Hcf & Hall). cbn [app] in Hacc. subst acc.
  rewrite Hp, Hf, Hdet, Hst. split; [lia|]. split; [lia|].
  pose proof (count_failed_zero new Hall) as Hzero.
  destruct (Z.eqb_spec f 0) as [Hf0|Hf0].
  - split; [intros _|reflexivity].
    split; [discriminate | apply Hzero; lia].
  - split; [discriminate|]. intros [_ HF]. apply Hzero in HF. lia.
Qed.

(** X12: once the driver is created and the first navigation has returned,
    no fault of a step makes the run an ERROR: the status is PASS or FAIL,
    [error_message] and [screenshot_url] are null, and there is one result
    per step; with an empty list of steps the run is a PASS with the three
    counters 0. *)
Theorem step_faults_never_make_an_error request w d env1 sid env2 env3 :
  Driver (browser request) (headless request) (w_env w) = (Ok d, env1) ->
  uuid4 env1 = (sid, env2) ->
  driver_get d (Some (url request)) env2 = (Ok tt, env3) ->
  exists r w',
    execute_test request w = (Ok r, w') /\
    (status r = "PASS" \/ status r = "FAIL") /\
    error_message r = None /\ screenshot_url r = None /\
    length (detailed_results r) = length (steps request) /\
    (steps request = [] ->
       status r = "PASS" /\ steps_executed r = 0 /\ steps_passed r = 0 /\
       steps_failed r = 0 /\ detailed_results r = []).
Proof.
  intros Hd Hu Hg. unfold execute_test. rewrite call_Driver, Hd. cbn [fst snd].
  set (st := time_time (w_env w)).
  destruct (run_session_outcome request st d (set_env env1 w))
    as [(r & w2 & Hrun & Hst & _ & _ & Hlen) | (e & w2 & Hrun)].
  - destruct (try_finally_cleanup
                (try_except (run_session request st d)
                            (on_error request st (Some d)))
                (Some d) (set_env env1 w) (Ok r) w2) as (w' & Hfin & _).
    { unfold try_except. now rewrite Hrun. }
    exists r, w'. split; [exact Hfin|]. split; [exact Hst|].
    pose proof Hrun as Hinv. apply run_session_inv in Hinv
      as (sid' & env2' & env3' & acc & p & f & w4 & _ & _ & Hloop & Hs & He &
          Hp & Hf & Hdet & Hmsg & Hshot & _).
    split; [exact Hmsg|]. split; [exact Hshot|]. split; [exact Hlen|].
    intros Hnil. rewrite Hnil in Hloop, He. cbn [for_steps] in Hloop.
    unfold ret in Hloop. apply Ok_inv in Hloop as [Hloop _].
    injection Hloop as <- <- <-.
    rewrite Hs, He, Hp, Hf, Hdet. repeat split.
  - exfalso. unfold run_session in Hrun.
    rewrite (bind_Ok _ _ (set_env env1 w) sid (set_env env2 (set_env env1 w)))
      in Hrun by (unfold call; cbn [set_env w_env]; now rewrite Hu).
    set (w2' := World env2 (<[sid := d]> (active_drivers w)) (background_tasks w))
      in *.
    rewrite (bind_Ok _ _ _ tt w2') in Hrun by reflexivity.
    rewrite (bind_Ok _ _ w2' tt (set_env env3 w2')) in Hrun
      by (unfold call; cbn [w2' w_env]; now rewrite Hg).
    match type of Hrun with context [for_steps ?ex ?todo ?i ?acc ?p ?f] =>
      destruct (for_steps_counts ex todo i acc p f (set_env env3 w2'))
        as (acc' & p' & f' & w4 & Hloop & _)
    end.
    rewrite (bind_Ok _ _ _ _ _ Hloop) in Hrun. cbv beta iota in Hrun.
    unfold bind, read, ret in Hrun. cbv beta iota zeta in Hrun.
    rewrite notify_run in Hrun. discriminate.
Qed.

End RunShape.

(** ** The callback queue and the registry over a whole run *)

Section RunEffects.
Context {P : Platform}.

Lemma run_session_tasks request st d w :
  match run_session request st d w with
  | (Ok r, w') =>
      background_tasks w' =
      (background_tasks w ++
       if truthy_str (webhook_url request)
       then [(default "" (webhook_url request), r)] else [])%list
  | (Raise _, w') => background_tasks w' = background_tasks w
  end.
Proof.
  unfold run_session.
  destruct (uuid4 (w_env w)) as [sid env2] eqn:Hu.
  rewrite (bind_Ok _ _ w sid (set_env env2 w))
    by (unfold call; now rewrite Hu).
  set (w2 := World env2 (<[sid := d]> (active_drivers w)) (background_tasks w)).
  rewrite (bind_Ok _ _ (set_env env2 w) tt w2) by reflexivity.
  destruct (driver_get d (Some (url request)) env2) as [[[]|e] env3] eqn:Hg.
  2:{ rewrite (bind_Raise _ _ w2 e (set_env env3 w2))
        by (unfold call; cbn [w2 w_env]; now rewrite Hg).
      reflexivity. }
  rewrite (bind_Ok _ _ w2 tt (set_env env3 w2))
    by (unfold call; cbn [w2 w_env]; now rewrite Hg).
  match goal with |- context [for_steps ?ex ?todo ?i ?acc ?p ?f] =>
    destruct (for_steps_counts ex todo i acc p f (set_env env3 w2))
      as (acc' & p' & f' & w4 & Hloop & _);
    pose proof (preserves_for_steps background_tasks
                  (fun _ _ => eq_refl) ex todo i acc p f (set_env env3 w2))
      as Hkeep
  end.
  rewrite Hloop in Hkeep. cbn [snd set_env w2 background_tasks] in Hkeep.
  rewrite (bind_Ok _ _ _ _ _ Hloop). cbv beta iota.
  unfold bind, read, ret. cbv beta iota zeta. rewrite notify_run.
  now rewrite notified_tasks, Hkeep.
Qed.

(** X13: every run returns, and it queues its callback exactly when
    [webhook_url] is a non-empty string: then one task, for that url, with
    the very result that the run returns; otherwise the queue is as
    before. *)
Theorem one_callback_with_the_returned_result request w :
  exists r w',
    execute_test request w = (Ok r, w') /\
    background_tasks w' =
    (background_tasks w ++
     if truthy_str (webhook_url request)
     then [(default "" (webhook_url request), r)] else [])%list.
Proof.
  unfold execute_test. rewrite call_Driver.
  destruct (Driver (browser request) (headless request) (w_env w))
    as [[d|e] env1]; cbn [fst snd].
  - set (st := time_time (w_env w)).
    pose proof (run_session_tasks request st d (set_env env1 w)) as Htasks.
    unfold try_finally, try_except.
    destruct (run_session request st d (set_env env1 w)) as [[r|e] w2].
    + destruct (cleanup_run (Some d) w2) as (w' & Hc & Hq & _). rewrite Hc.
      exists r, w'. split; [reflexivity|]. now rewrite Hq, Htasks.
    + rewrite on_error_Some. cbv beta iota zeta.
      match goal with |- context [cleanup (Some d) ?x] =>
        destruct (cleanup_run (Some d) x) as (w' & Hc & Hq & _); rewrite Hc end.
      eexists _, w'. split; [reflexivity|].
      rewrite Hq, notified_tasks. cbn [set_env background_tasks].
      now rewrite Htasks.
  - unfold try_finally. rewrite on_error_None. cbv beta iota zeta.
    cbn [cleanup]. unfold ret. eexists _, _. split; [reflexivity|].
    now rewrite notified_tasks.
Qed.

(** X14: the [finally] block with a driver never raises and calls [quit]
    once.  When [quit] returns, it removes every registry entry that holds
    this driver, under whatever id, and no other entry; when [quit] faults,
    it leaves the registry as it is. *)
Theorem cleanup_removes_exactly_the_driver d w :
  exists w',
    cleanup (Some d) w = (Ok tt, w') /\
    w_env w' = snd (driver_quit d (w_env w)) /\
    forall k,
      active_drivers w' !! k =
      if succeeded (fst (driver_quit d (w_env w)))
      then (if decide (active_drivers w !! k = Some d) then None
            else active_drivers w !! k)
      else active_drivers w !! k.
Proof.
  unfold cleanup, try_except, bind, call.
  destruct (driver_quit d (w_env w)) as [[[]|e] env'] eqn:Hq; cbv beta iota.
  - exists (snd (deregister d (set_env env' w))). split; [reflexivity|].
    split; [reflexivity|]. intros k. cbn [fst succeeded].
    now rewrite deregister_lookup.
  - exists (set_env env' w). split; [reflexivity|]. split; reflexivity.
Qed.

Lemma session_body_registers request st d w sid env2 :
  uuid4 (w_env w) = (sid, env2) ->
  exists r w1,
    try_except (run_session request st d) (on_error request st (Some d)) w
      = (Ok r, w1) /\
    active_drivers w1 = <[sid := d]> (active_drivers w).
Proof.
  intros Hu.
  pose proof (run_session_registers request st d w sid env2 Hu) as Hreg.
  unfold try_except.
  destruct (run_session request st d w) as [[r|e] w1]; cbn [snd] in Hreg.
  - now exists r, w1.
  - rewrite on_error_Some. cbv zeta. eexists _, _. split; [reflexivity|].
    unfold notified. now destruct (truthy_str (webhook_url request)).
Qed.

(** X15: a run leaves the registry entries of the other sessions alone:
    whatever the steps and the cleanup do, an entry under another id that
    does not hold this run's driver is after the run what it was before. *)
Theorem run_leaves_other_sessions_alone request w d env1 sid env2 :
  Driver (browser request) (headless request) (w_env w) = (Ok d, env1) ->
  uuid4 env1 = (sid, env2) ->
  exists r w',
    execute_test request w = (Ok r, w') /\
    forall k, k <> sid -> active_drivers w !! k <> Some d ->
      active_drivers w' !! k = active_drivers w !! k.
Proof.
  intros Hd Hu. unfold execute_test. rewrite call_Driver, Hd. cbn [fst snd].
  set (st := time_time (w_env w)).
  destruct (session_body_registers request st d (set_env env1 w) sid env2 Hu)
    as (r & w1 & Hbody & Hreg). cbn [set_env active_drivers] in Hreg.
  unfold try_finally. rewrite Hbody.
  unfold cleanup, try_except, bind, call.
  destruct (driver_quit d (w_env w1)) as [[[]|e] env']; cbv beta iota.
  - exists r, (snd (deregister d (set_env env' w1))). split; [reflexivity|].
    intros k Hk Hother. rewrite deregister_lookup.
    cbn [set_env active_drivers]. rewrite Hreg.
    rewrite lookup_insert_ne by congruence. now rewrite decide_False.
  - exists r, (set_env env' w1). split; [reflexivity|].
    intros k Hk _. cbn [set_env active_drivers]. rewrite Hreg.
    now rewrite lookup_insert_ne by congruence.
Qed.




End RunEffects.

(** ** The callback *)

Section WebhookProps.
Context {body : Type} {N : Network body}.

(** X18: [send_webhook] never raises.  It posts once, with a timeout of 10
    seconds, and writes one log line: the success line when the post
    returns a response whose [raise_for_status] passes, the failure line
    with the fault's text otherwise. *)
Theorem send_webhook_contains_faults url (data : body) s :
  exists s',
    send_webhook url data s = (Ok tt, s') /\
    h_net s' = snd (requests_post url data 10 (h_net s)) /\
    h_log s' =
    (h_log s ++
     [match fst (requests_post url data 10 (h_net s)) with
      | Ok resp =>
          match raise_for_status resp with
          | Ok _ => (INFO, "Webhook sent successfully to " +:+ url)
          | Raise e => (ERROR, "Failed to send webhook: " +:+ ex_msg e)
          end
      | Raise e => (ERROR, "Failed to send webhook: " +:+ ex_msg e)
      end])%list.
Proof.
  unfold send_webhook, h_try, h_bind, logger.
  destruct (requests_post url data 10 (h_net s)) as [[resp|e] n'];
    cbn [fst snd]; [|eexists; repeat split].
  destruct (raise_for_status resp) as [[]|e]; eexists; repeat split.
Qed.

End WebhookProps.

(** ** The substring test *)

Lemma prefix_iff (s1 s2 : string) :
  String.prefix s1 s2 = true <-> exists post, s2 = s1 +:+ post.
Proof.
  revert s2. induction s1 as [|a s1 IH]; intros [|b s2]; cbn.
  - split; [intros _; now exists "" | reflexivity].
  - split; [intros _; now exists (String b s2) | reflexivity].
  - split; [discriminate | intros (post & Hp); discriminate].
  - destruct (Ascii.ascii_dec a b) as [->|Hab].
    + rewrite IH. split; intros (post & Hp); exists post.
      * change (String b s2 = String b (s1 +:+ post)). now rewrite Hp.
      * change (String b s2 = String b (s1 +:+ post)) in Hp. now injection Hp.
    + split; [discriminate|]. intros (post & Hp).
      change (String b s2 = String a (s1 +:+ post)) in Hp. congruence.
Qed.

(** X19: the test that [verify] makes, [value in element_text], holds
    exactly when the text is some prefix, then the value, then some rest. *)
Theorem str_in_is_substring (needle hay : string) :
  str_in needle hay = true <->
  exists pre post, hay = pre +:+ needle +:+ post.
Proof.
  induction hay as [|c hay IH]; cbn [str_in].
  - rewrite orb_false_r, prefix_iff. split.
    + intros (post & Hp). now exists "", post.
    + intros (pre & post & Hp). destruct pre as [|a pre]; [|discriminate].
      now exists post.
  - rewrite orb_true_iff, prefix_iff, IH. split.
    + intros [(post & Hp) | (pre & post & Hp)].
      * now exists "", post.
      * exists (String c pre), post. cbn. now rewrite Hp.
    + intros (pre & post & Hp). destruct pre as [|a pre].
      * left. now exists post.
      * right. exists pre, post.
        change (String c hay = String a (pre +:+ needle +:+ post)) in Hp.
        now injection Hp.
Qed.

(** ** The further properties on sample inputs *)

Import Samples.

Lemma unknown_action_exhausts_retries_witness :
  exists r w',
    execute_step exec bogus_step 1 (start (showing "hi")) = (Ok (Some r), w') /\
    r !! "error" = Some (VStr "Unknown action: bogus") /\
    calls (w_env w') =
      ["sleep 2"; "sleep 2"; "save screenshots/t1_step_1_FAILED.png"].
Proof.
  destruct (unknown_action_exhausts_retries exec bogus_step 1
              (start (showing "hi")) eq_refl)
    as (r & w' & Hr & _ & _ & _ & Herr & Henv).
  exists r, w'. split; [exact Hr|]. split; [exact Herr|].
  rewrite Henv. vm_compute. reflexivity.
Defined.

Lemma missing_field_fails_before_any_browser_call_witness :
  exists r w',
    execute_step exec bare_click 1 (start (showing "hi")) = (Ok (Some r), w') /\
    r !! "status" = Some (VStr "failed") /\
    r !! "error_type" = Some (VStr "ValueError").
Proof.
  destruct (missing_field_fails_before_any_browser_call exec bare_click 1
              (start (showing "hi")) eq_refl)
    as (_ & r & w' & Hr & Hst & _ & Hty).
  now exists r, w'.
Defined.

Lemma verify_without_value_only_waits_witness :
  exists r,
    @execute_step (static "anything") exec quiet_verify 1 (blank _)
      = (Ok (Some (passed_result 1 r)), blank _).
Proof.
  destruct (@verify_without_value_only_waits (static "anything") exec
              quiet_verify 1 "#msg" (blank _) eq_refl eq_refl
              ltac:(discriminate) eq_refl) as (r & _ & Hr).
  exists r. exact Hr.
Defined.

Lemma falsy_timeout_waits_ten_seconds_witness :
  execute_step exec patient_click 1 (start (showing "hi"))
    = execute_step exec (with_timeout (Some 10) patient_click) 1
        (start (showing "hi")).
Proof.
  apply (falsy_timeout_waits_ten_seconds exec patient_click 1
           (start (showing "hi")) (or_introl eq_refl) (or_introl eq_refl)).
Defined.

Lemma wait_passes_iff_duration_valid_witness :
  exists r w',
    execute_step exec (wait_step (Some "-1")) 1 (start (showing "hi"))
      = (Ok (Some r), w') /\
    r !! "status" = Some (VStr "failed") /\
    r !! "attempt" = Some (VInt 3).
Proof.
  destruct (wait_passes_iff_duration_valid exec (wait_step (Some "-1")) 1
              (start (showing "hi")) eq_refl)
    as (r & w' & Hr & Hiff & Hfail & _).
  assert (Hno : r !! "status" <> Some (VStr "passed")).
  { intros Hp. apply Hiff in Hp as (d & Hd & Hn).
    vm_compute in Hd. injection Hd as <-.
    destruct Hn as [Hn|[Hn|Hn]]; vm_compute in Hn; discriminate. }
  destruct (Hfail Hno) as (Hst & Hat).
  now exists r, w'.
Defined.

Lemma step_result_names_its_step_witness :
  exists r w',
    execute_step exec click_step 4 (start slow) = (Ok (Some r), w') /\
    r !! "step_number" = Some (VInt 4) /\
    r !! "action" = Some (VStr "click") /\
    exists k, r !! "attempt" = Some (VInt k) /\ 1 <= k <= 3.
Proof.
  set (x := execute_step exec click_step 4 (start slow)).
  assert (Hx : x = (Ok (Some (returned ∅ (fst x))), snd x))
    by (apply run_Some_eta; vm_compute; reflexivity).
  destruct (step_result_names_its_step exec click_step 4 (start slow) _ _ Hx)
    as (Hn & Ha & Hk & _).
  exists (returned ∅ (fst x)), (snd x).
  split; [exact Hx|]. split; [exact Hn|]. split; [exact Ha | exact Hk].
Defined.

Lemma passed_result_shape_witness :
  exists r w',
    execute_step exec shot_step 2 (start (showing "hi")) = (Ok (Some r), w') /\
    r !! "screenshot" = Some (VStr "screenshots/t1_step_2.png") /\
    r !! "selector" = None /\ r !! "value" = None.
Proof.
  set (x := execute_step exec shot_step 2 (start (showing "hi"))).
  assert (Hx : x = (Ok (Some (returned ∅ (fst x))), snd x))
    by (apply run_Some_eta; vm_compute; reflexivity).
  assert (Hst : returned ∅ (fst x) !! "status" = Some (VStr "passed"))
    by (vm_compute; reflexivity).
  destruct (passed_result_shape exec shot_step 2 (start (showing "hi")) _ _
              Hx Hst) as (_ & _ & Hshape).
  exists (returned ∅ (fst x)), (snd x). split; [exact Hx | exact Hshape].
Defined.

Lemma open_url_target_witness :
  exists r w',
    execute_step exec open_step 1 (start (showing "hi")) = (Ok (Some r), w') /\
    r !! "status" = Some (VStr "passed") /\
    calls (w_env w') = ["get http://example.test/next"; "sleep 1"].
Proof.
  pose proof (open_url_target exec open_step 1 (start (showing "hi")) eq_refl)
    as H.
  change (exists r,
    execute_step exec open_step 1 (start (showing "hi"))
      = (Ok (Some r),
         set_env (elapse 1 (log "get http://example.test/next" (showing "hi")))
                 (start (showing "hi"))) /\
    r !! "status" = Some (VStr "passed") /\
    r !! "attempt" = Some (VInt 1)) in H.
  destruct H as (r & Hr & Hst & _).
  eexists r, _. split; [exact Hr|]. split; [exact Hst|].
  vm_compute. reflexivity.
Defined.

Lemma no_click_or_typing_before_visible_witness :
  exists e w',
    _execute_action exec click_step 1 (start late) = (Raise e, w') /\
    ex_type e = "TimeoutException" /\
    calls (w_env w') = ["wait #go"].
Proof.
  pose (e := TimeoutException "Message: ").
  pose (env1 := Browser "hi" 0 true true true true 0 0 ["wait #go"]
               : @env platform).
  exists e, (set_env env1 (start late)). split.
  - apply (no_click_or_typing_before_visible exec click_step 1 "#go"
             (start late) e env1 (or_introl eq_refl) eq_refl);
      [discriminate | vm_compute; reflexivity].
  - split; reflexivity.
Defined.

Lemma detailed_results_follow_the_steps_witness :
  exists r w' d,
    execute_test (request_of [click_step; bogus_step]) (start (showing "hi"))
      = (Ok r, w') /\
    detailed_results r !! 1%nat = Some d /\
    d !! "step_number" = Some (VInt 2) /\
    d !! "action" = Some (VStr "bogus").
Proof.
  set (x := execute_test (request_of [click_step; bogus_step])
              (start (showing "hi"))).
  assert (Hx : x = (Ok (result_of x), snd x))
    by (apply run_Ok_eta; vm_compute; reflexivity).
  assert (Hst : status (result_of x) <> "ERROR")
    by (intros H; vm_compute in H; discriminate).
  destruct (detailed_results_follow_the_steps _ _ _ _ Hx Hst) as (_ & Hnth).
  destruct (Hnth 1%nat bogus_step eq_refl) as (d & Hd & Hn & Ha).
  exists (result_of x), (snd x), d. split; [exact Hx|].
  split; [exact Hd|]. split; [exact Hn | exact Ha].
Defined.

Lemma counters_count_the_results_witness :
  exists r w',
    execute_test (request_of [click_step; bogus_step]) (start (showing "hi"))
      = (Ok r, w') /\
    steps_passed r = count_status "passed" (detailed_results r) /\
    steps_failed r = count_status "failed" (detailed_results r) /\
    steps_failed r = 1.
Proof.
  set (x := execute_test (request_of [click_step; bogus_step])
              (start (showing "hi"))).
  assert (Hx : x = (Ok (result_of x), snd x))
    by (apply run_Ok_eta; vm_compute; reflexivity).
  destruct (counters_count_the_results _ _ _ _ Hx) as (Hp & Hf & _).
  exists (result_of x), (snd x). split; [exact Hx|].
  split; [exact Hp|]. split; [exact Hf|]. vm_compute. reflexivity.
Defined.

Lemma step_faults_never_make_an_error_witness :
  exists r w',
    execute_test (request_of [bogus_step]) (start blind) = (Ok r, w') /\
    (status r = "PASS" \/ status r = "FAIL") /\
    error_message r = None /\ screenshot_url r = None.
Proof.
  pose (env1 := Browser "hi" 0 true true false true 1 0 ["Driver"]
               : @env platform).
  destruct (step_faults_never_make_an_error (request_of [bogus_step])
              (start blind) 0%nat env1 "uuid-1" env1
              (log "get http://example.test" env1))
    as (r & w' & Hr & Hst & Hmsg & Hshot & _);
    [vm_compute; reflexivity | vm_compute; reflexivity
    | vm_compute; reflexivity |].
  now exists r, w'.
Defined.

Lemma run_leaves_other_sessions_alone_witness :
  exists r w',
    execute_test (request_of [click_step]) (busy stuck) = (Ok r, w') /\
    active_drivers w' !! "other" = Some 7%nat.
Proof.
  pose (env1 := Browser "hi" 0 true true true false 1 0 ["Driver"]
               : @env platform).
  destruct (run_leaves_other_sessions_alone (request_of [click_step])
              (busy stuck) 0%nat env1 "uuid-1" env1)
    as (r & w' & Hr & Hother);
    [vm_compute; reflexivity | vm_compute; reflexivity |].
  exists r, w'. split; [exact Hr|].
  rewrite Hother; [vm_compute; reflexivity | discriminate |].
  vm_compute. discriminate.
Defined.



Lemma execute_step_contains_faults_witness :
  exists r w',
    execute_step exec bogus_step 1 (start (showing "hi")) = (Ok (Some r), w') /\
    r !! "status" = Some (VStr "failed") /\
    r !! "attempt" = Some (VInt 3) /\
    r !! "error" = Some (VStr "Unknown action: bogus") /\
    r !! "error_type" = Some (VStr "ValueError").
Proof.
  pose (w := start (showing "hi")).
  pose (e := ValueError "Unknown action: bogus").
  destruct (execute_step_contains_faults exec bogus_step 1 w)
    as (r & w' & Hr & _ & _ & Hfail & _).
  destruct (Hfail e w e (after_delay w) e (after_delay (after_delay w)))
    as (Hst & Hat & Herr & Hty);
    [vm_compute; reflexivity | vm_compute; reflexivity
    | vm_compute; reflexivity |].
  exists r, w'. split; [exact Hr|]. split; [exact Hst|]. split; [exact Hat|].
  split; [exact Herr | exact Hty].
Defined.
